(** * shenzhen-go: the graph controller and the pin connection protocol

    A shallow embedding of
      - [dev/client/controller/graph.go]  (package controller), and
      - the pin part of the client view (package view: [Pin] and its
        methods) together with the page wiring of [view/svg/main.go]
        ([snapQuad], [setError], [clearError], [mouseMove], [mouseUp]).

    Conventions of the embedding.
      - Go pointers ([*Pin], [*Channel], [*Node]) are addresses ([nat]) into
        total stores: every address denotes an object, as every non-nil Go
        pointer does; a nil pointer is [None].
      - Go maps used as maps are [gmap], Go maps used as sets
        ([map[*Pin]struct{}]) are [gset].
      - [float64] canvas coordinates and squared distances are taken in [Z].
      - The remote authority is a parameter: a function from the requests
        sent so far and the request at hand to [None] (success) or
        [Some text] (an error with that text).
      - [go f()] appends a task to the list of spawned goroutines; a task
        reads the stores when it runs, not when it is spawned. *)

From Stdlib Require Import ZArith Lia.
From stdpp Require Import gmap strings pretty list fin_maps fin_sets functions.

Local Open Scope Z_scope.

(** ** Requests of the remote authority (package pb) *)

Record NodeConfig := {
  nc_Name : string;
  nc_Enabled : bool;
  nc_Wait : bool;
  nc_Multiplicity : Z;
  nc_PartType : string;
  nc_PartCfg : string
}.

Inductive Request :=
| ConnectPinRequest (Graph Node Pin Channel : string)
| DisconnectPinRequest (Graph Node Pin : string)
| CreateNodeRequest (Graph : string) (Props : NodeConfig)
| SetGraphPropertiesRequest (Graph Name PackagePath : string) (IsCommand : bool)
| SaveRequest (Graph : string).

(** The client stub: the answer to a request may depend on everything that
    was sent before it. [None] is a nil error. *)
Definition ShenzhenGoClient := list Request -> Request -> option string.

(** Go's [int] is 64 bits wide here; [i++] wraps around. *)
Definition wrap_int (z : Z) : Z := (z + 2 ^ 63) mod 2 ^ 64 - 2 ^ 63.
Definition uint32 (z : Z) : Z := z mod 2 ^ 32.

(** [strconv.Itoa]: the decimal numeral of an [int]. *)
Definition Itoa (i : Z) : string := pretty i.

(** What a Go call can end in: a value, an error, or a panic; [OutOfFuel]
    is the model's own, for a loop cut short (shown unreachable below). *)
Inductive result (A : Type) :=
| Ok (a : A)
| Err (e : string)
| Panic
| OutOfFuel.
Arguments Ok {A} a.
Arguments Err {A} e.
Arguments Panic {A}.
Arguments OutOfFuel {A}.

(** ** package controller *)

Module Controller.

Section WithParts.

(** The model package is not among the sources: its part values, the
    table of part types and the marshaller are parameters. *)
Variable Part : Type.

Record PartType := { New : Part }.

Record Node := {
  Node_Name : string;
  Enabled : bool;
  Wait : bool;
  Multiplicity : Z;
  Node_Part : Part;
  X : Z;
  Y : Z
}.

Record Graph := {
  FilePath : string;
  Graph_Name : string;
  PackagePath : string;
  IsCommand : bool;
  Nodes : gmap string Node
}.

Variable PartTypes : gmap string PartType.
(** [model.MarshalPart]: the marshalled configuration, or an error text. *)
Variable MarshalPart : Part -> string + string.

(** The controller, with the graph it points to, the values held by its
    three inputs, and the requests that went out through [client]. *)
Record graphController := {
  graph : Graph;
  client : ShenzhenGoClient;
  graphNameTextInput : string;
  graphPackagePathTextInput : string;
  graphIsCommandCheckbox : bool;
  wire : list Request
}.

Definition with_graph (g : Graph) (c : graphController) : graphController :=
  {| graph := g; client := client c;
     graphNameTextInput := graphNameTextInput c;
     graphPackagePathTextInput := graphPackagePathTextInput c;
     graphIsCommandCheckbox := graphIsCommandCheckbox c;
     wire := wire c |}.

(** One remote call: the request is put on the wire and answered. *)
Definition call (req : Request) (c : graphController)
  : option string * graphController :=
  (client c (wire c) req,
   {| graph := graph c; client := client c;
      graphNameTextInput := graphNameTextInput c;
      graphPackagePathTextInput := graphPackagePathTextInput c;
      graphIsCommandCheckbox := graphIsCommandCheckbox c;
      wire := wire c ++ [req] |}).

(** The loop of [CreateNode]:
    [for i := 2; ; i++ { if _, found := nodes[name]; !found { break };
                         name = partType + " " + strconv.Itoa(i) }]. *)
Fixpoint inventName (fuel : nat) (nodes : gmap string Node)
    (partType : string) (i : Z) (name : string) : option string :=
  match fuel with
  | O => None
  | S fuel' =>
      match nodes !! name with
      | None => Some name
      | Some _ =>
          inventName fuel' nodes partType (wrap_int (i + 1))
            (partType +:+ " " +:+ Itoa i)
      end
  end.

(** The name the loop builds from the counter [i]. *)
Definition candidate (partType : string) (i : Z) : string :=
  partType +:+ " " +:+ Itoa i.

Definition newNode (name : string) (pt : Part) : Node :=
  {| Node_Name := name; Enabled := true; Wait := true; Multiplicity := 1;
     Node_Part := pt; X := 150; Y := 150 |}.

Definition CreateNode (partType : string) (c : graphController)
  : result Node * graphController :=
  match inventName (S (size (Nodes (graph c)))) (Nodes (graph c))
          partType 2 partType with
  | None => (OutOfFuel, c)
  | Some name =>
      match PartTypes !! partType with
      | None => (Panic, c) (* nil *PartType: [.New] dereferences it *)
      | Some ptype =>
          let pt := New ptype in
          match MarshalPart pt with
          | inr e => (Err ("marshalling part: " +:+ e), c)
          | inl pm =>
              let n := newNode name pt in
              let req := CreateNodeRequest (FilePath (graph c))
                {| nc_Name := Node_Name n;
                   nc_Enabled := Enabled n;
                   nc_Wait := Wait n;
                   nc_Multiplicity := uint32 (Multiplicity n);
                   nc_PartType := partType;
                   nc_PartCfg := pm |} in
              match call req c with
              | (Some e, c') => (Err e, c')
              | (None, c') => (Ok n, c')
              end
          end
      end
  end.

Definition Save (c : graphController) : option string * graphController :=
  call (SaveRequest (FilePath (graph c))) c.

Definition SaveProperties (c : graphController)
  : option string * graphController :=
  let req := SetGraphPropertiesRequest (FilePath (graph c))
               (graphNameTextInput c)
               (graphPackagePathTextInput c)
               (graphIsCommandCheckbox c) in
  match call req c with
  | (Some e, c') => (Some e, c')
  | (None, c') =>
      (None,
       with_graph
         {| FilePath := FilePath (graph c');
            Graph_Name := graphNameTextInput c;
            PackagePath := graphPackagePathTextInput c;
            IsCommand := graphIsCommandCheckbox c;
            Nodes := Nodes (graph c') |} c')
  end.

End WithParts.

End Controller.

(** ** package view: pins, channels and the drag protocol *)

Module View.

Definition PinId := nat.
Definition ChanId := nat.
Definition NodeId := nat.

Definition activeColour : string := "#09f".
Definition normalColour : string := "#000".
Definition errorColour : string := "#f06".
Definition pinRadius : Z := 5.
Definition lineWidth : Z := 2.
Definition snapQuad : Z := 144.

(** A [dom.Element] as far as the pin code drives it: its attributes and
    whether it is shown. *)
Inductive AttrVal :=
| AStr (s : string)
| ANum (z : Z).

Record Element := {
  attrs : gmap string AttrVal;
  shown : bool
}.

Definition SetAttribute (k : string) (v : AttrVal) (el : Element) : Element :=
  {| attrs := <[k := v]> (attrs el); shown := shown el |}.
Definition Show (el : Element) : Element :=
  {| attrs := attrs el; shown := true |}.
Definition Hide (el : Element) : Element :=
  {| attrs := attrs el; shown := false |}.

(** [Pin]; the fields [Name], [Type], [l], [x], [y], [c] of the source are
    [Pin_Name], [Pin_Type], [Pin_l], [Pin_x], [Pin_y], [Pin_c]. *)
Record Pin := {
  Pin_Name : string;
  Pin_Type : string;
  input : bool;
  node : NodeId;
  ch : option ChanId;
  circ : Element;
  Pin_l : Element;
  Pin_x : Z;
  Pin_y : Z;
  Pin_c : Element
}.

Definition set_ch (v : option ChanId) (p : Pin) : Pin :=
  {| Pin_Name := Pin_Name p; Pin_Type := Pin_Type p; input := input p;
     node := node p; ch := v; circ := circ p; Pin_l := Pin_l p;
     Pin_x := Pin_x p; Pin_y := Pin_y p; Pin_c := Pin_c p |}.
Definition on_circ (f : Element -> Element) (p : Pin) : Pin :=
  {| Pin_Name := Pin_Name p; Pin_Type := Pin_Type p; input := input p;
     node := node p; ch := ch p; circ := f (circ p); Pin_l := Pin_l p;
     Pin_x := Pin_x p; Pin_y := Pin_y p; Pin_c := Pin_c p |}.
Definition on_l (f : Element -> Element) (p : Pin) : Pin :=
  {| Pin_Name := Pin_Name p; Pin_Type := Pin_Type p; input := input p;
     node := node p; ch := ch p; circ := circ p; Pin_l := f (Pin_l p);
     Pin_x := Pin_x p; Pin_y := Pin_y p; Pin_c := Pin_c p |}.
Definition on_c (f : Element -> Element) (p : Pin) : Pin :=
  {| Pin_Name := Pin_Name p; Pin_Type := Pin_Type p; input := input p;
     node := node p; ch := ch p; circ := circ p; Pin_l := Pin_l p;
     Pin_x := Pin_x p; Pin_y := Pin_y p; Pin_c := f (Pin_c p) |}.

(** The view's channel: the name and type of its [model.Channel], the
    attached pins, the [created] flag and the display point. *)
Record Channel := {
  channel_Name : string;
  channel_Type : string;
  Pins : gset PinId;
  created : bool;
  tx : Z;
  ty : Z
}.

Definition set_Pins (v : gset PinId) (k : Channel) : Channel :=
  {| channel_Name := channel_Name k; channel_Type := channel_Type k;
     Pins := v; created := created k; tx := tx k; ty := ty k |}.

Record Node := {
  node_Name : string;
  node_X : Z;
  node_Y : Z
}.

(** [Point]: what the type switches of the pin code tell apart. *)
Inductive Point :=
| PtPin (q : PinId)
| PtChannel (q : ChanId).

Global Instance Point_eq_dec : EqDecision Point.
Proof. solve_decision. Defined.

Inductive draggable :=
| DragPin (p : PinId)
| DragChannel (k : ChanId).

(** The error label, a [textBox]. *)
Record textBox := {
  text : string;
  box_x : Z;
  box_y : Z;
  visible : bool
}.

Record Event := {
  clientX : Z;
  clientY : Z
}.

(** Goroutines started with [go]. *)
Inductive Task :=
| go_reallyConnect (p : PinId)
| go_reallyDisconnect (p : PinId).

(** Calls of [Channel] methods whose bodies are not among the sources; the
    model records them in order and gives them no other effect. *)
Inductive ChannelCall :=
| setColour (k : ChanId) (colour : string)
| reposition (k : ChanId)
| commit (k : ChanId).

Record State := {
  pins : PinId -> Pin;
  channels : ChanId -> Channel;
  nodes : NodeId -> Node;
  graph_FilePath : string;
  graph_Channels : gmap string ChanId;
  bcr_left : Z;
  bcr_top : Z;
  dragItem : option draggable;
  errLabel : textBox;
  goroutines : list Task;
  wire : list Request;
  calls : list ChannelCall;
  nextChannel : ChanId
}.

Definition set_pins (v : PinId -> Pin) (s : State) : State :=
  {| pins := v; channels := channels s; nodes := nodes s;
     graph_FilePath := graph_FilePath s; graph_Channels := graph_Channels s;
     bcr_left := bcr_left s; bcr_top := bcr_top s; dragItem := dragItem s;
     errLabel := errLabel s; goroutines := goroutines s; wire := wire s;
     calls := calls s; nextChannel := nextChannel s |}.
Definition set_channels (v : ChanId -> Channel) (s : State) : State :=
  {| pins := pins s; channels := v; nodes := nodes s;
     graph_FilePath := graph_FilePath s; graph_Channels := graph_Channels s;
     bcr_left := bcr_left s; bcr_top := bcr_top s; dragItem := dragItem s;
     errLabel := errLabel s; goroutines := goroutines s; wire := wire s;
     calls := calls s; nextChannel := nextChannel s |}.
Definition set_graph_Channels (v : gmap string ChanId) (s : State) : State :=
  {| pins := pins s; channels := channels s; nodes := nodes s;
     graph_FilePath := graph_FilePath s; graph_Channels := v;
     bcr_left := bcr_left s; bcr_top := bcr_top s; dragItem := dragItem s;
     errLabel := errLabel s; goroutines := goroutines s; wire := wire s;
     calls := calls s; nextChannel := nextChannel s |}.
Definition set_dragItem (v : option draggable) (s : State) : State :=
  {| pins := pins s; channels := channels s; nodes := nodes s;
     graph_FilePath := graph_FilePath s; graph_Channels := graph_Channels s;
     bcr_left := bcr_left s; bcr_top := bcr_top s; dragItem := v;
     errLabel := errLabel s; goroutines := goroutines s; wire := wire s;
     calls := calls s; nextChannel := nextChannel s |}.
Definition set_errLabel (v : textBox) (s : State) : State :=
  {| pins := pins s; channels := channels s; nodes := nodes s;
     graph_FilePath := graph_FilePath s; graph_Channels := graph_Channels s;
     bcr_left := bcr_left s; bcr_top := bcr_top s; dragItem := dragItem s;
     errLabel := v; goroutines := goroutines s; wire := wire s;
     calls := calls s; nextChannel := nextChannel s |}.
Definition set_goroutines (v : list Task) (s : State) : State :=
  {| pins := pins s; channels := channels s; nodes := nodes s;
     graph_FilePath := graph_FilePath s; graph_Channels := graph_Channels s;
     bcr_left := bcr_left s; bcr_top := bcr_top s; dragItem := dragItem s;
     errLabel := errLabel s; goroutines := v; wire := wire s;
     calls := calls s; nextChannel := nextChannel s |}.
Definition set_wire (v : list Request) (s : State) : State :=
  {| pins := pins s; channels := channels s; nodes := nodes s;
     graph_FilePath := graph_FilePath s; graph_Channels := graph_Channels s;
     bcr_left := bcr_left s; bcr_top := bcr_top s; dragItem := dragItem s;
     errLabel := errLabel s; goroutines := goroutines s; wire := v;
     calls := calls s; nextChannel := nextChannel s |}.
Definition set_calls (v : list ChannelCall) (s : State) : State :=
  {| pins := pins s; channels := channels s; nodes := nodes s;
     graph_FilePath := graph_FilePath s; graph_Channels := graph_Channels s;
     bcr_left := bcr_left s; bcr_top := bcr_top s; dragItem := dragItem s;
     errLabel := errLabel s; goroutines := goroutines s; wire := wire s;
     calls := v; nextChannel := nextChannel s |}.
Definition set_nextChannel (v : ChanId) (s : State) : State :=
  {| pins := pins s; channels := channels s; nodes := nodes s;
     graph_FilePath := graph_FilePath s; graph_Channels := graph_Channels s;
     bcr_left := bcr_left s; bcr_top := bcr_top s; dragItem := dragItem s;
     errLabel := errLabel s; goroutines := goroutines s; wire := wire s;
     calls := calls s; nextChannel := v |}.

(** Writes through a pointer. *)
Definition on_pin (p : PinId) (f : Pin -> Pin) (s : State) : State :=
  set_pins (<[p := f (pins s p)]> (pins s)) s.
Definition on_channel (k : ChanId) (f : Channel -> Channel) (s : State) : State :=
  set_channels (<[k := f (channels s k)]> (channels s)) s.

Definition go (t : Task) (s : State) : State :=
  set_goroutines (goroutines s ++ [t]) s.
Definition record (e : ChannelCall) (s : State) : State :=
  set_calls (calls s ++ [e]) s.

(** [cursorPos]: the event position relative to the diagram. *)
Definition cursorPos (e : Event) (s : State) : Z * Z :=
  (clientX e - bcr_left s, clientY e - bcr_top s).

Definition clearError (s : State) : State :=
  set_errLabel {| text := text (errLabel s); box_x := box_x (errLabel s);
                  box_y := box_y (errLabel s); visible := false |} s.

(** [setError]: the label is moved to [(x+4, y-36)], given the text and
    shown. *)
Definition setError (err : string) (x y : Z) (s : State) : State :=
  if decide (err = "") then clearError s
  else set_errLabel {| text := err; box_x := x + 4; box_y := y - 36;
                       visible := true |} s.

(** The [*Channel] case of [checkConnectionTo]. *)
Definition checkConnectionToChannel (s : State) (p : PinId) (q : ChanId)
  : option string :=
  if decide (channel_Type (channels s q) <> Pin_Type (pins s p)) then
    Some ("mismatching types [" +:+ Pin_Type (pins s p) +:+ " != "
            +:+ channel_Type (channels s q) +:+ "]")
  else
    let same :=
      forallb (fun r => bool_decide (input (pins s r) = input (pins s p)))
              (elements (Pins (channels s q))) in
    if same then Some "must connect at least one input and one output"
    else None.

(** [checkConnectionTo]: [None] is the nil error. *)
Definition checkConnectionTo (s : State) (p : PinId) (q : Point)
  : option string :=
  match q with
  | PtPin q =>
      if decide (Pin_Type (pins s q) <> Pin_Type (pins s p)) then
        Some ("mismatching types [" +:+ Pin_Type (pins s p) +:+ " != "
                +:+ Pin_Type (pins s q) +:+ "]")
      else
        match ch (pins s q) with
        | Some k => checkConnectionToChannel s p k
        | None =>
            if bool_decide (input (pins s p) = input (pins s q)) then
              Some "both pins have the same direction"
            else if decide (node (pins s p) = node (pins s q)) then
              Some "both pins are on the same goroutine"
            else None
        end
  | PtChannel q => checkConnectionToChannel s p q
  end.

(** The type a target is compared by: a pin's own, a channel's. *)
Definition pointType (s : State) (q : Point) : string :=
  match q with
  | PtPin q => Pin_Type (pins s q)
  | PtChannel q => channel_Type (channels s q)
  end.

(** [disconnect]. The pin was deleted from the set before the loop, so
    [p.ch] stays the same channel until the last line. *)
Definition disconnect (p : PinId) (s : State) : State :=
  match ch (pins s p) with
  | None => s
  | Some k =>
      let s := go (go_reallyDisconnect p) s in
      let s := on_channel k (fun K => set_Pins (Pins K ∖ {[p]}) K) s in
      let s := record (setColour k normalColour) s in
      let s := record (reposition k) s in
      let s :=
        if decide (size (Pins (channels s k)) < 2)%nat then
          let s := foldr (fun q s => on_pin q (set_ch None) s) s
                         (elements (Pins (channels s k))) in
          set_graph_Channels
            (delete (channel_Name (channels s k)) (graph_Channels s)) s
        else s in
      on_pin p (set_ch None) s
  end.

(** Modelled from the spec: [View.createChannel] is not among the sources.
    A channel is made for two free pins validated as connectable, typed as
    the dragged pin, holding both pins, and marked as newly created; the
    model names it after its address. *)
Definition createChannel (p q : PinId) (s : State) : ChanId * State :=
  let k := nextChannel s in
  let K := {| channel_Name := "channel" +:+ pretty k;
              channel_Type := Pin_Type (pins s p);
              Pins := {[p; q]};
              created := true;
              tx := 0; ty := 0 |} in
  (k, set_nextChannel (S k) (set_channels (<[k := K]> (channels s)) s)).

(** The [*Channel] case of [connectTo]. *)
Definition connectToChannel (p : PinId) (q : ChanId) (s : State) : State :=
  let s := match ch (pins s p) with
           | Some k => if decide (k <> q) then disconnect p s else s
           | None => s
           end in
  let s := on_pin p (set_ch (Some q)) s in
  let s := on_channel q (fun K => set_Pins ({[p]} ∪ Pins K) K) s in
  record (reposition q) s.

Definition connectTo (p : PinId) (q : Point) (s : State) : State :=
  match q with
  | PtPin q =>
      let s := match ch (pins s p) with
               | Some k =>
                   if decide (Some k <> ch (pins s q)) then disconnect p s
                   else s
               | None => s
               end in
      match ch (pins s q) with
      | Some k => connectToChannel p k s
      | None =>
          let '(k, s) := createChannel p q s in
          let s := record (reposition k) s in
          let s := on_pin p (set_ch (Some k)) s in
          let s := on_pin q (set_ch (Some k)) s in
          let s := set_graph_Channels
                     (<[channel_Name (channels s k) := k]> (graph_Channels s)) s in
          on_pin q (on_l Show) s
      end
  | PtChannel q => connectToChannel p q s
  end.

(** [reallyConnect], run as a goroutine. [None] is the panic of reading
    [p.ch.channel] through a nil [p.ch]. *)
Definition reallyConnect (client : ShenzhenGoClient) (p : PinId) (s : State)
  : option State :=
  match ch (pins s p) with
  | None => None
  | Some k =>
      let req := ConnectPinRequest (graph_FilePath s)
                   (node_Name (nodes s (node (pins s p))))
                   (Pin_Name (pins s p))
                   (channel_Name (channels s k)) in
      let answer := client (wire s) req in
      let s := set_wire (wire s ++ [req]) s in
      match answer with
      | Some err => Some (setError ("Couldn't connect: " +:+ err) 0 0 s)
      | None => Some s
      end
  end.

Definition reallyDisconnect (client : ShenzhenGoClient) (p : PinId) (s : State)
  : State :=
  let req := DisconnectPinRequest (graph_FilePath s)
               (node_Name (nodes s (node (pins s p))))
               (Pin_Name (pins s p)) in
  let answer := client (wire s) req in
  let s := set_wire (wire s ++ [req]) s in
  match answer with
  | Some err => setError ("Couldn't disconnect: " +:+ err) 0 0 s
  | None => s
  end.

(** The scheduler: the oldest spawned goroutine runs to its end. *)
Definition runTask (client : ShenzhenGoClient) (t : Task) (s : State)
  : option State :=
  match t with
  | go_reallyConnect p => reallyConnect client p s
  | go_reallyDisconnect p => Some (reallyDisconnect client p s)
  end.

Definition runNext (client : ShenzhenGoClient) (s : State) : option State :=
  match goroutines s with
  | [] => Some s
  | t :: ts => runTask client t (set_goroutines ts s)
  end.

Fixpoint runAll (client : ShenzhenGoClient) (n : nat) (s : State)
  : option State :=
  match n with
  | O => Some s
  | S n' => match runNext client s with
            | Some s' => runAll client n' s'
            | None => None
            end
  end.

Section WithChannelMethods.

(** [Channel.dragStart], [Channel.drag], [Channel.drop] and
    [Graph.nearestPoint] are not among the sources; the pin code is
    embedded over any of them. *)
Variable Channel_dragStart : ChanId -> Event -> State -> State.
Variable Channel_drag : ChanId -> Event -> State -> State.
Variable Channel_drop : ChanId -> Event -> State -> State.
Variable nearestPoint : State -> Z -> Z -> Z * Point.

(** The tail of [dragStart], from [dragItem = p] on. *)
Definition dragStartFree (p : PinId) (e : Event) (s : State) : State :=
  let s := set_dragItem (Some (DragPin p)) s in
  let s := on_pin p (on_circ (SetAttribute "fill" (AStr errorColour))) s in
  let '(x, y) := cursorPos e s in
  let s := on_pin p (on_l (fun el =>
             Show (SetAttribute "stroke" (AStr errorColour)
                    (SetAttribute "y2" (ANum y)
                       (SetAttribute "x2" (ANum x) el))))) s in
  on_pin p (on_c (fun el =>
    Show (SetAttribute "stroke" (AStr errorColour)
            (SetAttribute "cy" (ANum y)
               (SetAttribute "cx" (ANum x) el))))) s.

(** [dragStart] calls itself on the pin left on a dissolved channel. *)
Fixpoint dragStartFuel (fuel : nat) (p : PinId) (e : Event) (s : State)
  : option State :=
  match fuel with
  | O => None
  | S fuel' =>
      match ch (pins s p) with
      | Some k =>
          let s := disconnect p s in
          let s := on_pin p (on_l Hide) s in
          if decide (1 < size (Pins (channels s k)))%nat then
            Some (Channel_dragStart k e s)
          else
            match elements (Pins (channels s k)) with
            | q :: _ => dragStartFuel fuel' q e s
            | [] => Some (dragStartFree p e s)
            end
      | None => Some (dragStartFree p e s)
      end
  end.

Definition dragStart (p : PinId) (e : Event) (s : State) : option State :=
  dragStartFuel 2 p e s.

(** The closure [noSnap] of [drag]. *)
Definition noSnap (p : PinId) (s : State) : State :=
  let s := match ch (pins s p) with
           | Some k => disconnect p (record (setColour k normalColour) s)
           | None => s
           end in
  let s := on_pin p (on_circ (SetAttribute "fill" (AStr errorColour))) s in
  let s := on_pin p (on_l (SetAttribute "stroke" (AStr errorColour))) s in
  on_pin p (on_c (fun el =>
    Show (SetAttribute "stroke" (AStr errorColour) el))) s.

(** The deferred function of [drag], run on every way out with the final
    [x], [y]. *)
Definition dragDeferred (p : PinId) (x y : Z) (s : State) : State :=
  let s := on_pin p (on_l (fun el =>
             SetAttribute "y2" (ANum y) (SetAttribute "x2" (ANum x) el))) s in
  on_pin p (on_c (fun el =>
    SetAttribute "cy" (ANum y) (SetAttribute "cx" (ANum x) el))) s.

(** [drag]. [None] is the panic of [p.ch.setColour] through a nil
    [p.ch]. *)
Definition drag (p : PinId) (e : Event) (s : State) : option State :=
  let '(x, y) := cursorPos e s in
  let '(d, q) := nearestPoint s x y in
  if bool_decide (PtPin p = q) || (snapQuad <=? d) then
    Some (dragDeferred p x y (noSnap p (clearError s)))
  else
    match checkConnectionTo s p q with
    | Some err =>
        Some (dragDeferred p x y
                (noSnap p (setError ("Can't connect: " +:+ err) x y s)))
    | None =>
        let s := connectTo p q s in
        let snapTo :=
          match q with
          | PtPin q => option_map (fun k => (tx (channels s k), ty (channels s k)))
                                  (ch (pins s q))
          | PtChannel q => Some (tx (channels s q), ty (channels s q))
          end in
        match snapTo, ch (pins s p) with
        | Some (x, y), Some k =>
            let s := clearError s in
            let s := record (setColour k activeColour) s in
            let s := on_pin p (on_c Hide) s in
            Some (dragDeferred p x y s)
        | _, _ => None
        end
    end.

Definition drop (p : PinId) (e : Event) (s : State) : State :=
  let s := clearError s in
  let s := on_pin p (on_circ (SetAttribute "fill" (AStr normalColour))) s in
  let s := on_pin p (on_c Hide) s in
  match ch (pins s p) with
  | None =>
      let s := on_pin p (on_l Hide) s in
      go (go_reallyDisconnect p) s
  | Some k =>
      let s := if created (channels s k) then go (go_reallyConnect p) s
               else s in
      let s := record (setColour k normalColour) s in
      record (commit k) s
  end.

Definition mouseMove (e : Event) (s : State) : option State :=
  match dragItem s with
  | None => Some s
  | Some (DragPin p) => drag p e s
  | Some (DragChannel k) => Some (Channel_drag k e s)
  end.

Definition mouseUp (e : Event) (s : State) : option State :=
  match dragItem s with
  | None => Some s
  | Some (DragPin p) =>
      match drag p e s with
      | Some s => Some (set_dragItem None (drop p e s))
      | None => None
      end
  | Some (DragChannel k) =>
      Some (set_dragItem None (Channel_drop k e (Channel_drag k e s)))
  end.

End WithChannelMethods.

(** Modelled from the spec: [Channel.dragStart] is not among the sources.
    Of a drag that starts on a pin of a channel the spec says that the
    channel persists and that the other remaining endpoint becomes the new
    drag origin. [Pin.dragStart] calls this after the pressed pin has left
    the pin set, so the pins listed are the remaining ones: the first
    listed becomes the dragged item, and nothing else is changed. The spec
    does not say which pin is meant when several remain. *)
Definition Channel_dragStart_model (k : ChanId) (e : Event) (s : State) : State :=
  match elements (Pins (channels s k)) with
  | q :: _ => set_dragItem (Some (DragPin q)) s
  | [] => s
  end.

(** [Pin.Pt] returns the pin's [x], [y]. Modelled from the spec for the
    other case: [Channel.Pt] is not among the sources; a channel is matched
    by its display point. *)
Definition Pt (s : State) (q : Point) : Z * Z :=
  match q with
  | PtPin q => (Pin_x (pins s q), Pin_y (pins s q))
  | PtChannel q => (tx (channels s q), ty (channels s q))
  end.

(** Modelled from the spec: the squared Euclidean distance that
    [Graph.nearestPoint], not among the sources, compares points by. *)
Definition quadTo (s : State) (x y : Z) (q : Point) : Z :=
  let '(px, py) := Pt s q in
  (x - px) * (x - px) + (y - py) * (y - py).

(** Modelled from the spec: the linear scan of [Graph.nearestPoint], the
    first point met winning a tie. *)
Fixpoint nearestAmong (s : State) (x y : Z) (best : Z * Point)
    (pts : list Point) : Z * Point :=
  match pts with
  | [] => best
  | q :: pts' =>
      let t := quadTo s x y q in
      nearestAmong s x y (if decide (t < fst best) then (t, q) else best) pts'
  end.

(** Modelled from the spec: [Graph.nearestPoint] is not among the sources.
    The closest of the connectable points and the squared distance to it.
    The points are given in the order of the scan; there is always one, the
    dragged pin. *)
Definition nearestPoint_model (first : Point) (others : list Point)
    (s : State) (x y : Z) : Z * Point :=
  nearestAmong s x y (quadTo s x y first, first) others.

End View.

(** ** Concrete graphs and clients, for the worked cases *)

Module Samples.

(** A remote authority that accepts everything, and one that refuses
    everything with the text [unavailable]. *)
Definition accepting : ShenzhenGoClient := fun _ _ => None.
Definition refusing : ShenzhenGoClient := fun _ _ => Some "unavailable".

Definition partTypes : gmap string (Controller.PartType unit) :=
  {[ "Sum" := {| Controller.New := tt |} ]}.
Definition marshal (_ : unit) : string + string := inl "{}".

Definition sumNode : Controller.Node unit :=
  Controller.newNode unit "Sum" tt.

Definition sampleGraph : Controller.Graph unit :=
  {| Controller.FilePath := "adder.szgo";
     Controller.Graph_Name := "adder";
     Controller.PackagePath := "example/adder";
     Controller.IsCommand := false;
     Controller.Nodes := {[ "Sum" := sumNode ]} |}.

Definition controllerWith (cl : ShenzhenGoClient) : Controller.graphController unit :=
  {| Controller.graph := sampleGraph;
     Controller.client := cl;
     Controller.graphNameTextInput := "adder2";
     Controller.graphPackagePathTextInput := "example/adder2";
     Controller.graphIsCommandCheckbox := true;
     Controller.wire := [] |}.

(** Pins, channels and diagrams. *)
Definition blank : View.Element := {| View.attrs := ∅; View.shown := false |}.

Definition mkPin (name type : string) (isInput : bool) (n : View.NodeId)
    (k : option View.ChanId) (px py : Z) : View.Pin :=
  {| View.Pin_Name := name; View.Pin_Type := type; View.input := isInput;
     View.node := n; View.ch := k; View.circ := blank; View.Pin_l := blank;
     View.Pin_x := px; View.Pin_y := py; View.Pin_c := blank |}.

Definition mkChannel (name type : string) (ps : gset View.PinId)
    (isCreated : bool) : View.Channel :=
  {| View.channel_Name := name; View.channel_Type := type; View.Pins := ps;
     View.created := isCreated; View.tx := 0; View.ty := 0 |}.

Definition mkNode (name : string) : View.Node :=
  {| View.node_Name := name; View.node_X := 0; View.node_Y := 0 |}.

Definition mkState (ps : View.PinId -> View.Pin)
    (ks : View.ChanId -> View.Channel) (ns : View.NodeId -> View.Node)
    (registered : gmap string View.ChanId) (next : View.ChanId) : View.State :=
  {| View.pins := ps; View.channels := ks; View.nodes := ns;
     View.graph_FilePath := "adder.szgo"; View.graph_Channels := registered;
     View.bcr_left := 0; View.bcr_top := 0; View.dragItem := None;
     View.errLabel := {| View.text := ""; View.box_x := 0; View.box_y := 0;
                         View.visible := false |};
     View.goroutines := []; View.wire := []; View.calls := [];
     View.nextChannel := next |}.

Definition threeNodes (n : View.NodeId) : View.Node :=
  match n with
  | 0%nat => mkNode "Gen"
  | 1%nat => mkNode "Sum"
  | _ => mkNode "Print"
  end.

(** Pin A (int, output, node Gen) and pin B (int, input, node Sum), both
    free; every other address holds a free string input on Print. *)
Definition twoFree : View.State :=
  mkState
    (fun p => match p with
              | 0%nat => mkPin "A" "int" false 0%nat None 100 100
              | 1%nat => mkPin "B" "int" true 1%nat None 300 200
              | _ => mkPin "C" "string" true 2%nat None 500 300
              end)
    (fun _ => mkChannel "" "" ∅ false)
    threeNodes ∅ 0%nat.

(** Pins A (output, Gen), B (input, Sum) and C (input, Print) on one
    channel known to the remote authority. *)
Definition threeAttached : View.State :=
  mkState
    (fun p => match p with
              | 0%nat => mkPin "A" "int" false 0%nat (Some 0%nat) 100 100
              | 1%nat => mkPin "B" "int" true 1%nat (Some 0%nat) 300 200
              | 2%nat => mkPin "C" "int" true 2%nat (Some 0%nat) 500 300
              | _ => mkPin "D" "int" true 2%nat None 700 300
              end)
    (fun k => match k with
              | 0%nat => mkChannel "channel0" "int" {[0%nat; 1%nat; 2%nat]} false
              | _ => mkChannel "" "" ∅ false
              end)
    threeNodes {[ "channel0" := 0%nat ]} 1%nat.

(** Node Gen has an output A and an input B; B is on a channel with the
    output C of node Sum. *)
Definition loopback : View.State :=
  mkState
    (fun p => match p with
              | 0%nat => mkPin "A" "int" false 0%nat None 100 100
              | 1%nat => mkPin "B" "int" true 0%nat (Some 0%nat) 100 200
              | 2%nat => mkPin "C" "int" false 1%nat (Some 0%nat) 300 200
              | _ => mkPin "D" "int" false 0%nat None 100 300
              end)
    (fun k => match k with
              | 0%nat => mkChannel "channel0" "int" {[1%nat; 2%nat]} false
              | _ => mkChannel "" "" ∅ false
              end)
    threeNodes {[ "channel0" := 0%nat ]} 1%nat.

(** The absent channel handlers, where a run needs some. *)
Definition idle (_ : View.ChanId) (_ : View.Event) (s : View.State) : View.State := s.

Definition at_ (cx cy : Z) : View.Event :=
  {| View.clientX := cx; View.clientY := cy |}.

(** The connectable points of [twoFree]. *)
Definition nearestOfTwo : View.State -> Z -> Z -> Z * View.Point :=
  View.nearestPoint_model (View.PtPin 0%nat) [View.PtPin 1%nat].

(** A is pressed and dragged to (301,199), one off B. *)
Definition draggedOnto : option View.State :=
  s ← View.dragStart View.Channel_dragStart_model 0%nat (at_ 100 100) twoFree;
  View.drag nearestOfTwo 0%nat (at_ 301 199) s.

(** A is pressed, and released at (301,199). *)
Definition released : option View.State :=
  s ← View.dragStart View.Channel_dragStart_model 0%nat (at_ 100 100) twoFree;
  View.mouseUp idle idle nearestOfTwo (at_ 301 199) s.

(** The same, and the goroutine spawned at the drop runs against [cl]. *)
Definition releasedAndAnswered (cl : ShenzhenGoClient) : option View.State :=
  s ← released; View.runNext cl s.

(** The diagram while A is held over B: A and B on the new channel. *)
Definition snapped : View.State := default twoFree draggedOnto.

End Samples.

(** ** What a sound diagram looks like *)

Module Wellformed.
Import View.

(** Two pins that differ at most in their look. *)
Definition same_pin (P P' : Pin) : Prop :=
  Pin_Name P' = Pin_Name P /\ Pin_Type P' = Pin_Type P /\
  input P' = input P /\ node P' = node P /\ ch P' = ch P /\
  Pin_x P' = Pin_x P /\ Pin_y P' = Pin_y P.

(** Two diagrams with the same nodes, pins, channels and attachments: they
    differ at most in the look of pins, the error label, the dragged item,
    the goroutines, the wire and the recorded calls. *)
Definition same_wiring (s s' : State) : Prop :=
  (forall r, same_pin (pins s r) (pins s' r)) /\
  (forall k, channels s' k = channels s k) /\
  nodes s' = nodes s /\
  graph_FilePath s' = graph_FilePath s /\
  graph_Channels s' = graph_Channels s /\
  nextChannel s' = nextChannel s.

(** A pin is attached only to a channel that was made, that lists the pin
    and that has the pin's type. *)
Definition attachments_sound (s : State) : Prop :=
  forall r k, ch (pins s r) = Some k ->
    r ∈ Pins (channels s k) /\
    (k < nextChannel s)%nat /\
    channel_Type (channels s k) = Pin_Type (pins s r).

(** A channel of the graph is kept under its own name, was made, and joins
    two pins or more. *)
Definition registry_sound (s : State) : Prop :=
  forall n k, graph_Channels s !! n = Some k ->
    channel_Name (channels s k) = n /\
    (k < nextChannel s)%nat /\
    (2 <= size (Pins (channels s k)))%nat.

Definition consistent (s : State) : Prop :=
  attachments_sound s /\ registry_sound s.

(** The channel joins an input and an output. *)
Definition mixed (s : State) (k : ChanId) : Prop :=
  (exists a, a ∈ Pins (channels s k) /\ input (pins s a) = true) /\
  (exists b, b ∈ Pins (channels s k) /\ input (pins s b) = false).

(** The target is a pin, or a channel that was made. *)
Definition made (s : State) (q : Point) : Prop :=
  match q with
  | PtPin _ => True
  | PtChannel k => (k < nextChannel s)%nat
  end.

End Wellformed.

(** ** More diagrams for the worked cases *)

Module MoreSamples.

(** A (output, Gen) and B (input, Sum) on channel0; C (output, Print) and D
    (input, Sum) on channel1; every other pin is a free input E on Print. *)
Definition twoChannels : View.State :=
  Samples.mkState
    (fun p => match p with
              | 0%nat => Samples.mkPin "A" "int" false 0%nat (Some 0%nat) 100 100
              | 1%nat => Samples.mkPin "B" "int" true 1%nat (Some 0%nat) 300 200
              | 2%nat => Samples.mkPin "C" "int" false 2%nat (Some 1%nat) 500 300
              | 3%nat => Samples.mkPin "D" "int" true 1%nat (Some 1%nat) 300 400
              | _ => Samples.mkPin "E" "int" true 2%nat None 500 500
              end)
    (fun k => match k with
              | 0%nat => Samples.mkChannel "channel0" "int" {[0%nat; 1%nat]} false
              | 1%nat => Samples.mkChannel "channel1" "int" {[2%nat; 3%nat]} false
              | _ => Samples.mkChannel "" "" ∅ false
              end)
    Samples.threeNodes {[ "channel0" := 0%nat; "channel1" := 1%nat ]} 2%nat.

(** The points of [twoChannels] around (300,400): D, then channel1. *)
Definition nearestOfChannels : View.State -> Z -> Z -> Z * View.Point :=
  View.nearestPoint_model (View.PtPin 3%nat) [View.PtChannel 1%nat].

(** The points of [Samples.twoFree] with the string pin C. *)
Definition nearestOfThree : View.State -> Z -> Z -> Z * View.Point :=
  View.nearestPoint_model (View.PtPin 0%nat) [View.PtPin 1%nat; View.PtPin 2%nat].

(** A graph whose node names use up "Sum", "Sum 2" and "Sum 3". *)
Definition crowdedGraph : Controller.Graph unit :=
  {| Controller.FilePath := "adder.szgo";
     Controller.Graph_Name := "adder";
     Controller.PackagePath := "example/adder";
     Controller.IsCommand := false;
     Controller.Nodes := {[ "Sum" := Samples.sumNode;
                            "Sum 2" := Controller.newNode unit "Sum 2" tt;
                            "Sum 3" := Controller.newNode unit "Sum 3" tt ]} |}.

Definition crowdedController : Controller.graphController unit :=
  {| Controller.graph := crowdedGraph;
     Controller.client := Samples.accepting;
     Controller.graphNameTextInput := "adder";
     Controller.graphPackagePathTextInput := "example/adder";
     Controller.graphIsCommandCheckbox := false;
     Controller.wire := [] |}.

End MoreSamples.

(** * Properties of the controller *)

Module ControllerFacts.
Import Controller.

Section Naming.

Context {Part : Type}.
Implicit Types (nodes : gmap string (Node Part)) (partType name : string).

Lemma candidate_inj partType i j :
  candidate partType i = candidate partType j -> i = j.
Proof.
  unfold candidate, Itoa. intros H.
  apply (inj (String.append partType)) in H.
  apply (inj (String.append " ")) in H.
  by apply (inj pretty) in H.
Qed.

Lemma candidate_not_bare partType i : candidate partType i <> partType.
Proof.
  unfold candidate. generalize (Itoa i). intros t.
  induction partType as [|a partType IH]; simpl; [done|].
  intros [= H]. by apply IH.
Qed.

Lemma wrap_int_small z : - 2 ^ 63 <= z < 2 ^ 63 -> wrap_int z = z.
Proof.
  intros Hz. unfold wrap_int.
  rewrite Z.mod_small; lia.
Qed.

(** The loop leaves with a name that is not a key. *)
Lemma inventName_fresh fuel nodes partType i name r :
  inventName Part fuel nodes partType i name = Some r -> nodes !! r = None.
Proof.
  revert i name. induction fuel as [|fuel IH]; intros i name; simpl; [done|].
  destruct (nodes !! name) eqn:Hn.
  - apply IH.
  - intros [= <-]. exact Hn.
Qed.

(** The name is the one the loop started with or a candidate it built. *)
Lemma inventName_form fuel nodes partType i name r :
  2 <= i -> i + Z.of_nat fuel < 2 ^ 63 ->
  inventName Part fuel nodes partType i name = Some r ->
  r = name \/ exists j, i <= j < i + Z.of_nat fuel /\ r = candidate partType j.
Proof.
  revert i name. induction fuel as [|fuel IH]; intros i name Hi Hb; simpl; [done|].
  destruct (nodes !! name) eqn:Hn.
  - rewrite wrap_int_small by lia. intros Hr.
    apply IH in Hr; [|lia..].
    right. destruct Hr as [->|(j & Hj & ->)].
    + exists i. split; [lia|done].
    + exists j. split; [lia|done].
  - intros [= <-]. by left.
Qed.

(** A key that is never tried does not matter to the loop. *)
Lemma inventName_delete fuel nodes partType i name k :
  2 <= i -> i + Z.of_nat fuel < 2 ^ 63 ->
  k <> name ->
  (forall j, i <= j < i + Z.of_nat fuel -> candidate partType j <> k) ->
  inventName Part fuel (delete k nodes) partType i name
  = inventName Part fuel nodes partType i name.
Proof.
  revert i name. induction fuel as [|fuel IH]; intros i name Hi Hb Hk Hc; simpl; [done|].
  rewrite lookup_delete_ne by done.
  destruct (nodes !! name); [|done].
  rewrite wrap_int_small by lia.
  apply IH; [lia|lia| |].
  - intros ->. by apply (Hc i); [lia|].
  - intros j Hj. apply Hc. lia.
Qed.

(** With more fuel than keys the loop ends: the names it tries are
    pairwise different, and each clash uses up one key. *)
Lemma inventName_terminates fuel nodes partType i name :
  2 <= i -> i + Z.of_nat fuel < 2 ^ 63 ->
  (size nodes < fuel)%nat ->
  (forall j, i <= j < i + Z.of_nat fuel -> candidate partType j <> name) ->
  is_Some (inventName Part fuel nodes partType i name).
Proof.
  revert nodes i name.
  induction fuel as [|fuel IH]; intros nodes i name Hi Hb Hsz Hc; [lia|].
  simpl. destruct (nodes !! name) as [n|] eqn:Hn; [|by eexists].
  rewrite wrap_int_small by lia.
  rewrite <- (inventName_delete fuel nodes partType (i + 1) _ name); [|lia|lia| |].
  - apply IH; [lia|lia| |].
    + assert (Hd : size nodes = S (size (delete name nodes))).
      { rewrite <- (insert_id nodes name n Hn) at 1.
        rewrite <- insert_delete_eq.
        apply map_size_insert_None, lookup_delete_eq. }
      clear -Hd Hsz. lia.
    + intros j Hj Heq. apply candidate_inj in Heq. clear -Hj Heq. lia.
  - intros Heq. by apply (Hc i); [lia|].
  - intros j Hj. apply Hc. lia.
Qed.

(** Fuel beyond what the loop uses changes nothing. *)
Lemma inventName_more_fuel fuel fuel' nodes partType i name r :
  (fuel <= fuel')%nat ->
  inventName Part fuel nodes partType i name = Some r ->
  inventName Part fuel' nodes partType i name = Some r.
Proof.
  revert fuel' i name.
  induction fuel as [|fuel IH]; intros fuel' i name Hle; simpl; [done|].
  destruct fuel' as [|fuel']; [lia|]. simpl.
  destruct (nodes !! name); [|done].
  apply IH. lia.
Qed.

End Naming.

Section WithParts.

Variable Part : Type.
Variable PartTypes : gmap string (PartType Part).
Variable MarshalPart : Part -> string + string.

Local Abbreviation CreateNode := (Controller.CreateNode Part PartTypes MarshalPart).
Local Abbreviation SaveProperties := (Controller.SaveProperties Part).

(** C9, as amended. For a registered part type (and a node map of fewer
    than 2^62 keys, which every Go map is), [CreateNode] invents a name
    that is not a key of the node map: the part type itself, or the part
    type, a space and a decimal numeral of at least 2. If marshalling
    fails it returns that error and sends nothing. Otherwise it sends one
    request carrying the name, Enabled and Wait set, Multiplicity 1; if the
    remote call fails it returns the error and no node, if it succeeds it
    returns the node with that name, Enabled and Wait set, Multiplicity 1
    and position (150,150). In every case the local graph, its node map
    included, is what it was. *)
Theorem CreateNode_fresh_name_graph_untouched
    (partType : string) (ptype : PartType Part) (c : graphController Part) :
  Z.of_nat (size (Nodes Part (graph Part c))) < 2 ^ 62 ->
  PartTypes !! partType = Some ptype ->
  exists name,
    Nodes Part (graph Part c) !! name = None /\
    (name = partType \/
     exists i, 2 <= i /\ name = partType +:+ " " +:+ Itoa i) /\
    graph Part (CreateNode partType c).2 = graph Part c /\
    match MarshalPart (New Part ptype) with
    | inr e =>
        CreateNode partType c = (Err ("marshalling part: " +:+ e), c)
    | inl pm =>
        let req := CreateNodeRequest (FilePath Part (graph Part c))
                     {| nc_Name := name; nc_Enabled := true;
                        nc_Wait := true; nc_Multiplicity := 1;
                        nc_PartType := partType; nc_PartCfg := pm |} in
        wire Part (CreateNode partType c).2 = wire Part c ++ [req] /\
        match client Part c (wire Part c) req with
        | Some e => (CreateNode partType c).1 = Err e
        | None =>
            (CreateNode partType c).1
            = Ok {| Node_Name := name; Enabled := true; Wait := true;
                    Multiplicity := 1; Node_Part := New Part ptype;
                    X := 150; Y := 150 |}
        end
    end.
Proof.
  intros Hsize Hpt.
  set (nodes := Nodes Part (graph Part c)) in *.
  destruct (inventName_terminates (S (size nodes)) nodes partType 2 partType)
    as [name Hname].
  - lia.
  - lia.
  - lia.
  - intros j _. apply candidate_not_bare.
  - exists name. split; [by eapply inventName_fresh|]. split.
    + apply inventName_form in Hname; [|lia..].
      destruct Hname as [->|(j & Hj & ->)]; [by left|].
      right. exists j. split; [lia|done].
    + unfold Controller.CreateNode. fold nodes. rewrite Hname, Hpt.
      destruct (MarshalPart (New Part ptype)) as [pm|e]; [|done].
      unfold call. simpl.
      change (uint32 1) with 1.
      destruct (client Part c (wire Part c) _); done.
Qed.

(** C10. [SaveProperties] sends one [SetGraphProperties] request with
    the values read from the three inputs. If the remote call succeeds,
    it returns nil and the graph's Name, PackagePath and IsCommand are
    those values, the rest of the graph being what it was; if the remote
    call returns an error, it returns that error and the graph is what it
    was. *)
Theorem SaveProperties_atomic (c : graphController Part) :
  let req := SetGraphPropertiesRequest (FilePath Part (graph Part c))
               (graphNameTextInput Part c)
               (graphPackagePathTextInput Part c)
               (graphIsCommandCheckbox Part c) in
  wire Part (SaveProperties c).2 = wire Part c ++ [req] /\
  match client Part c (wire Part c) req with
  | None =>
      (SaveProperties c).1 = None /\
      graph Part (SaveProperties c).2
      = {| FilePath := FilePath Part (graph Part c);
           Graph_Name := graphNameTextInput Part c;
           PackagePath := graphPackagePathTextInput Part c;
           IsCommand := graphIsCommandCheckbox Part c;
           Nodes := Nodes Part (graph Part c) |}
  | Some e =>
      (SaveProperties c).1 = Some e /\
      graph Part (SaveProperties c).2 = graph Part c
  end.
Proof.
  unfold Controller.SaveProperties, call. simpl.
  destruct (client Part c (wire Part c) _); done.
Qed.

End WithParts.

(** C9, a run: the name "Sum" is taken, so the node is named "Sum 2". *)
Lemma CreateNode_fresh_name_sample :
  Z.of_nat (size (Nodes unit (graph unit (Samples.controllerWith Samples.accepting))))
    < 2 ^ 62 /\
  Samples.partTypes !! "Sum" = Some {| New := tt |} /\
  exists name,
    Nodes unit Samples.sampleGraph !! name = None /\
    (Controller.CreateNode unit Samples.partTypes Samples.marshal "Sum"
       (Samples.controllerWith Samples.accepting)).1
    = Ok (newNode unit name tt).
Proof.
  split; [by vm_compute|]. split; [by vm_compute|].
  destruct (CreateNode_fresh_name_graph_untouched unit Samples.partTypes
              Samples.marshal "Sum" {| New := tt |}
              (Samples.controllerWith Samples.accepting))
    as (name & Hfresh & _ & _ & Hrun); [by vm_compute|by vm_compute|].
  exists name. split; [exact Hfresh|].
  simpl in Hrun. destruct Hrun as [_ Hrun]. exact Hrun.
Defined.

(** C9 as stated fails: when the remote call is refused, [CreateNode]
    returns the error and no node at all. *)
Lemma CreateNode_refused_returns_no_node :
  (Controller.CreateNode unit Samples.partTypes Samples.marshal "Sum"
     (Samples.controllerWith Samples.refusing)).1 = Err "unavailable" /\
  ~ exists n,
      (Controller.CreateNode unit Samples.partTypes Samples.marshal "Sum"
         (Samples.controllerWith Samples.refusing)).1 = Ok n.
Proof.
  assert (H : (Controller.CreateNode unit Samples.partTypes Samples.marshal "Sum"
     (Samples.controllerWith Samples.refusing)).1 = Err "unavailable")
    by (by vm_compute).
  split; [exact H|]. intros [n Hn]. rewrite H in Hn. discriminate.
Qed.

End ControllerFacts.

(** * Properties of the connection validator *)

Module ValidatorFacts.
Import View.

Lemma forallb_false_elem {A} (f : A -> bool) (xs : list A) :
  forallb f xs = false <-> exists r, r ∈ xs /\ f r = false.
Proof.
  induction xs as [|a xs IH]; simpl.
  - split; [done|]. intros (r & Hr & _). by apply elem_of_nil in Hr.
  - rewrite andb_false_iff, IH. split.
    + intros [Ha|(r & Hr & Hf)].
      * exists a. split; [left|done].
      * exists r. split; [by right|done].
    + intros (r & Hr & Hf). apply elem_of_cons in Hr as [->|Hr]; [by left|].
      right. by exists r.
Qed.

(** When the channel rule lets a pin in: the types agree and some attached
    pin runs the other way. *)
Lemma checkConnectionToChannel_approves s p k :
  checkConnectionToChannel s p k = None <->
  channel_Type (channels s k) = Pin_Type (pins s p) /\
  exists r, r ∈ Pins (channels s k) /\ input (pins s r) <> input (pins s p).
Proof.
  unfold checkConnectionToChannel.
  destruct (decide (channel_Type (channels s k) <> Pin_Type (pins s p))) as [Hne|Heq].
  - split; [done|]. intros [Heq _]. by destruct Hne.
  - apply dec_stable in Heq.
    destruct (forallb _ _) eqn:Hall.
    + split; [done|]. intros (_ & r & Hr & Hdir).
      assert (Hf : forallb (fun r => bool_decide (input (pins s r) = input (pins s p)))
                     (elements (Pins (channels s k))) = false).
      { apply forallb_false_elem. exists r. split; [by apply elem_of_elements|].
        by apply bool_decide_eq_false. }
      congruence.
    + split; [|done]. intros _. split; [done|].
      apply forallb_false_elem in Hall as (r & Hr & Hf).
      exists r. split; [by apply elem_of_elements|].
      by apply bool_decide_eq_false in Hf.
Qed.

(** C7. A target whose type differs from the dragged pin's is refused with
    the mismatching-types message, whatever the directions and nodes, and
    whether the target is a free pin, an attached pin or a channel. *)
Theorem checkConnectionTo_type_mismatch_first s p q :
  pointType s q <> Pin_Type (pins s p) ->
  checkConnectionTo s p q
  = Some ("mismatching types [" +:+ Pin_Type (pins s p) +:+ " != "
            +:+ pointType s q +:+ "]") /\
  exists rest, checkConnectionTo s p q = Some ("mismatching types" +:+ rest).
Proof.
  intros Hne.
  assert (H : checkConnectionTo s p q
              = Some ("mismatching types [" +:+ Pin_Type (pins s p) +:+ " != "
                        +:+ pointType s q +:+ "]")).
  { destruct q as [q|k]; simpl in *.
    - by rewrite decide_True.
    - unfold checkConnectionToChannel. by rewrite decide_True. }
  split; [exact H|]. rewrite H. by eexists.
Qed.

(** C7, a run: A (int) against a free string pin on another node. *)
Lemma checkConnectionTo_type_mismatch_sample :
  pointType Samples.twoFree (PtPin 2%nat) <> Pin_Type (pins Samples.twoFree 0%nat) /\
  checkConnectionTo Samples.twoFree 0%nat (PtPin 2%nat)
  = Some "mismatching types [int != string]".
Proof.
  split; [by vm_compute|].
  apply (checkConnectionTo_type_mismatch_first Samples.twoFree 0%nat (PtPin 2%nat)).
  by vm_compute.
Defined.

(** The [*Pin] case against a free target, check after check. *)
Lemma checkConnectionTo_free_target s p q :
  ch (pins s q) = None ->
  checkConnectionTo s p (PtPin q)
  = if decide (Pin_Type (pins s q) <> Pin_Type (pins s p)) then
      Some ("mismatching types [" +:+ Pin_Type (pins s p) +:+ " != "
              +:+ Pin_Type (pins s q) +:+ "]")
    else if bool_decide (input (pins s p) = input (pins s q)) then
      Some "both pins have the same direction"
    else if decide (node (pins s p) = node (pins s q)) then
      Some "both pins are on the same goroutine"
    else None.
Proof. intros Hfree. simpl. by rewrite Hfree. Qed.

(** C8, as amended. For two pins of one node, the target being free, the
    validator refuses: with the mismatching-types message if the types
    differ, else with the same-direction message if the directions agree,
    and with the same-goroutine message only when the types agree and the
    directions differ. *)
Theorem checkConnectionTo_same_node_free_pin s p q :
  node (pins s p) = node (pins s q) ->
  ch (pins s q) = None ->
  checkConnectionTo s p (PtPin q)
  = Some (if decide (Pin_Type (pins s q) <> Pin_Type (pins s p)) then
            "mismatching types [" +:+ Pin_Type (pins s p) +:+ " != "
              +:+ Pin_Type (pins s q) +:+ "]"
          else if bool_decide (input (pins s p) = input (pins s q)) then
            "both pins have the same direction"
          else "both pins are on the same goroutine").
Proof.
  intros Hnode Hfree. rewrite checkConnectionTo_free_target by done.
  destruct (decide (Pin_Type (pins s q) <> Pin_Type (pins s p))); [done|].
  destruct (bool_decide (input (pins s p) = input (pins s q))); [done|].
  by rewrite decide_True.
Qed.

(** C8, a run: the input B of Gen against the free output A of Gen. *)
Lemma checkConnectionTo_same_node_sample :
  node (pins Samples.loopback 1%nat) = node (pins Samples.loopback 0%nat) /\
  ch (pins Samples.loopback 0%nat) = None /\
  checkConnectionTo Samples.loopback 1%nat (PtPin 0%nat)
  = Some "both pins are on the same goroutine".
Proof.
  split; [reflexivity|]. split; [reflexivity|].
  exact (checkConnectionTo_same_node_free_pin Samples.loopback 1%nat 0%nat
           eq_refl eq_refl).
Defined.

(** C8 as stated fails: two outputs of one node are refused for their
    direction, not for their node. *)
Lemma checkConnectionTo_same_node_same_direction :
  node (pins Samples.loopback 3%nat) = node (pins Samples.loopback 0%nat) /\
  checkConnectionTo Samples.loopback 3%nat (PtPin 0%nat)
  = Some "both pins have the same direction" /\
  checkConnectionTo Samples.loopback 3%nat (PtPin 0%nat)
  <> Some "both pins are on the same goroutine".
Proof. split; [reflexivity|]. split; [by vm_compute|]. by vm_compute. Qed.

(** C3, as amended. Two pins of one node are never joined directly: a free
    target on the dragged pin's node is refused. A target attached to a
    channel is judged by the channel rule alone, which approves exactly when
    the types agree and some attached pin has the other direction; the
    nodes of the attached pins play no part. *)
Theorem checkConnectionTo_same_node s p q :
  node (pins s p) = node (pins s q) ->
  (ch (pins s q) = None -> is_Some (checkConnectionTo s p (PtPin q))) /\
  (forall k, ch (pins s q) = Some k ->
     (checkConnectionTo s p (PtPin q) = None <->
      Pin_Type (pins s q) = Pin_Type (pins s p) /\
      channel_Type (channels s k) = Pin_Type (pins s p) /\
      exists r, r ∈ Pins (channels s k) /\ input (pins s r) <> input (pins s p))).
Proof.
  intros Hnode. split.
  - intros Hfree. rewrite checkConnectionTo_free_target by done.
    destruct (decide (Pin_Type (pins s q) <> Pin_Type (pins s p))); [by eexists|].
    destruct (bool_decide (input (pins s p) = input (pins s q))); [by eexists|].
    rewrite decide_True by done. by eexists.
  - intros k Hk. simpl. rewrite Hk.
    destruct (decide (Pin_Type (pins s q) <> Pin_Type (pins s p))) as [Hne|Heq].
    + split; [done|]. intros [Heq _]. by destruct Hne.
    + apply dec_stable in Heq. rewrite checkConnectionToChannel_approves.
      split; [intros [Ht Hr]; auto | intros (_ & Ht & Hr); auto].
Qed.

(** C3, a run: A and the free output D, both on Gen. *)
Lemma checkConnectionTo_same_node_direct_sample :
  node (pins Samples.loopback 0%nat) = node (pins Samples.loopback 3%nat) /\
  ch (pins Samples.loopback 3%nat) = None /\
  is_Some (checkConnectionTo Samples.loopback 0%nat (PtPin 3%nat)).
Proof.
  split; [reflexivity|]. split; [reflexivity|].
  exact (proj1 (checkConnectionTo_same_node Samples.loopback 0%nat 3%nat eq_refl)
           eq_refl).
Defined.

(** C3 as stated fails: the output A of Gen is let onto the channel that
    holds the input B of Gen. *)
Lemma checkConnectionTo_same_node_through_channel :
  node (pins Samples.loopback 0%nat) = node (pins Samples.loopback 1%nat) /\
  ch (pins Samples.loopback 1%nat) = Some 0%nat /\
  checkConnectionTo Samples.loopback 0%nat (PtPin 1%nat) = None.
Proof. split; [reflexivity|]. split; [reflexivity|]. by vm_compute. Qed.

End ValidatorFacts.

(** * Properties of the drag protocol *)

Module ProtocolFacts.
Import View.

Lemma set_pins_id s : set_pins (pins s) s = s.
Proof. by destruct s. Qed.

(** The loop [for q := range p.ch.Pins { q.ch = nil }] clears the attachment
    of the pins it ranges over and touches nothing else. *)
Lemma clear_loop (qs : list PinId) s :
  exists f,
    foldr (fun q s => on_pin q (set_ch None) s) s qs = set_pins f s /\
    forall q, f q = if bool_decide (q ∈ qs) then set_ch None (pins s q)
                    else pins s q.
Proof.
  induction qs as [|a qs (f & Hf & Hq)].
  - exists (pins s). split; [by rewrite set_pins_id|]. intros q.
    rewrite bool_decide_eq_false_2; [done|apply not_elem_of_nil].
  - simpl. rewrite Hf. exists (<[a := set_ch None (f a)]> f). split; [done|].
    intros q. unfold insert, fn_insert.
    destruct (decide (a = q)) as [->|Hne].
    + rewrite bool_decide_eq_true_2 by left. rewrite Hq.
      by destruct (bool_decide (q ∈ qs)).
    + rewrite Hq. destruct (decide (q ∈ qs)) as [Hin|Hnin].
      * rewrite !bool_decide_eq_true_2; [done|by right|done].
      * rewrite !bool_decide_eq_false_2; [done| |done].
        intros Hc. apply elem_of_cons in Hc as [->|Hc]; done.
Qed.

Lemma not_in_rest (p : PinId) (X : gset PinId) : p ∉ X ∖ {[p]}.
Proof. rewrite elem_of_difference, elem_of_singleton. by intros [_ Hc]. Qed.

(** [disconnect] on an attached pin, field by field. *)
Lemma disconnect_attached s p k :
  ch (pins s p) = Some k ->
  let rest := Pins (channels s k) ∖ {[p]} in
  exists ps,
    disconnect p s
    = set_pins ps
        (set_graph_Channels
           (if decide (size rest < 2)%nat
            then delete (channel_Name (channels s k)) (graph_Channels s)
            else graph_Channels s)
           (record (reposition k)
              (record (setColour k normalColour)
                 (on_channel k (fun K => set_Pins (Pins K ∖ {[p]}) K)
                    (go (go_reallyDisconnect p) s))))) /\
    forall q, ps q = if decide (q = p) then set_ch None (pins s p)
                     else if decide ((size rest < 2)%nat /\ q ∈ rest)
                          then set_ch None (pins s q)
                          else pins s q.
Proof.
  intros Hk rest. unfold disconnect. rewrite Hk. cbn zeta.
  set (S2 := record (reposition k) _).
  assert (HP : Pins (channels S2 k) = rest).
  { subst S2. simpl. by rewrite fn_lookup_insert. }
  assert (HN : channel_Name (channels S2 k) = channel_Name (channels s k)).
  { subst S2. simpl. by rewrite fn_lookup_insert. }
  assert (Hp : pins S2 = pins s) by done.
  assert (HG : graph_Channels S2 = graph_Channels s) by done.
  rewrite HP. clearbody S2.
  destruct (decide (size rest < 2)%nat) as [Hlt|Hge].
  - destruct (clear_loop (elements rest) S2) as (f & Hf & Hq). rewrite Hf.
    exists (<[p := set_ch None (f p)]> f). split.
    + unfold on_pin. simpl. by rewrite HN, HG.
    + intros q. unfold insert, fn_insert.
      assert (Hfp : f p = pins s p).
      { rewrite Hq, Hp. rewrite bool_decide_eq_false_2; [done|].
        rewrite elem_of_elements. apply not_in_rest. }
      destruct (decide (p = q)) as [<-|Hne].
      * rewrite decide_True by done. by rewrite Hfp.
      * rewrite decide_False by done. rewrite Hq, Hp.
        destruct (decide (q ∈ rest)) as [Hin|Hnin].
        -- rewrite bool_decide_eq_true_2 by (by apply elem_of_elements).
           by rewrite decide_True.
        -- rewrite bool_decide_eq_false_2 by (by rewrite elem_of_elements).
           rewrite decide_False; [done|]. by intros [_ ?].
  - exists (<[p := set_ch None (pins s p)]> (pins s)). split.
    + unfold on_pin. rewrite Hp, <- HG. by destruct S2.
    + intros q. unfold insert, fn_insert.
      destruct (decide (p = q)) as [<-|Hne].
      * by rewrite decide_True.
      * rewrite decide_False by done. rewrite decide_False; [done|]. by intros [? _].
Qed.

(** C6. Disconnecting a pin takes it out of its channel's pin set and
    empties its attachment. If fewer than two pins are left, the channel's
    name is removed from the graph's channel map and every pin that was left
    on it has its attachment emptied; if two or more are left, the graph's
    channel map is what it was, so the channel stays in the graph, and no
    other pin is changed. *)
Theorem disconnect_destroys_below_two s p k :
  ch (pins s p) = Some k ->
  let rest := Pins (channels s k) ∖ {[p]} in
  let s' := disconnect p s in
  Pins (channels s' k) = rest /\
  ch (pins s' p) = None /\
  ((size rest < 2)%nat ->
     graph_Channels s' = delete (channel_Name (channels s k)) (graph_Channels s) /\
     graph_Channels s' !! channel_Name (channels s k) = None /\
     forall q, q ∈ rest -> ch (pins s' q) = None) /\
  ((2 <= size rest)%nat ->
     graph_Channels s' = graph_Channels s /\
     forall q, q <> p -> pins s' q = pins s q).
Proof.
  intros Hk rest s'.
  destruct (disconnect_attached s p k Hk) as (ps & Hs & Hps).
  fold rest in Hs, Hps. subst s'. rewrite Hs. simpl.
  rewrite fn_lookup_insert. simpl.
  split; [done|]. split; [by rewrite Hps, decide_True|]. split.
  - intros Hlt. rewrite decide_True by done.
    split; [done|]. split; [apply lookup_delete_eq|].
    intros q Hq. rewrite Hps.
    destruct (decide (q = p)); [done|]. by rewrite decide_True.
  - intros Hge. rewrite decide_False by lia. split; [done|].
    intros q Hq. rewrite Hps, decide_False by done.
    rewrite decide_False; [done|]. intros [? _]. lia.
Qed.

(** C6, a run: three pins on a channel. Taking A off leaves two and the
    channel stays registered; taking B off next leaves one, the channel is
    unregistered and C is free. *)
Lemma disconnect_three_then_two :
  ch (pins Samples.threeAttached 0%nat) = Some 0%nat /\
  ch (pins (disconnect 0%nat Samples.threeAttached) 1%nat) = Some 0%nat /\
  graph_Channels (disconnect 0%nat Samples.threeAttached)
  = graph_Channels Samples.threeAttached /\
  graph_Channels (disconnect 1%nat (disconnect 0%nat Samples.threeAttached))
    !! "channel0" = None /\
  ch (pins (disconnect 1%nat (disconnect 0%nat Samples.threeAttached)) 2%nat)
  = None.
Proof.
  split; [reflexivity|]. split; [by vm_compute|].
  pose proof (disconnect_destroys_below_two Samples.threeAttached 0%nat 0%nat
                eq_refl) as Hfirst.
  assert (Hk : ch (pins (disconnect 0%nat Samples.threeAttached) 1%nat)
               = Some 0%nat) by (by vm_compute).
  pose proof (disconnect_destroys_below_two
                (disconnect 0%nat Samples.threeAttached) 1%nat 0%nat Hk)
    as Hsecond.
  cbv zeta in Hfirst, Hsecond.
  destruct Hfirst as (_ & _ & _ & Hkeep).
  destruct Hsecond as (_ & _ & Hdrop & _).
  split.
  { apply Hkeep. vm_compute. lia. }
  destruct Hdrop as (_ & Hgone & Hpins).
  { vm_compute. lia. }
  split.
  { exact Hgone. }
  apply Hpins. apply (bool_decide_unpack _). by vm_compute.
Defined.

Section WithChannelMethods.

Variable Channel_dragStart : ChanId -> Event -> State -> State.

(** A drag that starts on a free pin makes that pin the dragged item. *)
Lemma dragStartFree_dragItem p e s :
  dragItem (dragStartFree p e s) = Some (DragPin p).
Proof. reflexivity. Qed.

Lemma dragStartFree_ch p e s q :
  ch (pins (dragStartFree p e s) q) = ch (pins s q).
Proof.
  unfold dragStartFree, cursorPos, on_pin. simpl.
  unfold insert, fn_insert. destruct (decide (p = q)) as [->|]; [|done].
  simpl. by rewrite !decide_True by done.
Qed.

Lemma dragStartFree_graph_Channels p e s :
  graph_Channels (dragStartFree p e s) = graph_Channels s.
Proof. reflexivity. Qed.

(** What [dragStart] does after detaching an attached pin. *)
Lemma dragStart_attached_unfold s p e k :
  ch (pins s p) = Some k ->
  let rest := Pins (channels s k) ∖ {[p]} in
  let s1 := on_pin p (on_l Hide) (disconnect p s) in
  Pins (channels s1 k) = rest /\
  dragStart Channel_dragStart p e s
  = if decide (1 < size rest)%nat
    then Some (Channel_dragStart k e s1)
    else match elements rest with
         | q :: _ => dragStartFuel Channel_dragStart 1 q e s1
         | [] => Some (dragStartFree p e s1)
         end.
Proof.
  intros Hk rest s1.
  destruct (disconnect_attached s p k Hk) as (ps & Hs & Hps).
  fold rest in Hs, Hps.
  assert (HP : Pins (channels s1 k) = rest).
  { subst s1. rewrite Hs. simpl. by rewrite fn_lookup_insert. }
  split; [exact HP|].
  unfold dragStart, dragStartFuel. rewrite Hk. cbn zeta. fold s1.
  by rewrite HP.
Qed.

(** A pin left alone on the channel is free once the dragged pin is off. *)
Lemma dragStart_frees_last s p k q :
  ch (pins s p) = Some k ->
  let rest := Pins (channels s k) ∖ {[p]} in
  (size rest < 2)%nat -> q ∈ rest ->
  ch (pins (on_pin p (on_l Hide) (disconnect p s)) q) = None.
Proof.
  intros Hk rest Hlt Hq.
  destruct (disconnect_attached s p k Hk) as (ps & Hs & Hps).
  fold rest in Hs, Hps.
  assert (Hqp : q <> p).
  { intros ->. by apply (not_in_rest p (Pins (channels s k))). }
  rewrite Hs. simpl. unfold insert, fn_insert.
  rewrite decide_False by done.
  rewrite Hps, decide_False by done. by rewrite decide_True.
Qed.

(** The state in which [dragStart] leaves an attached pin before it hands
    the drag on: the pin is off the channel and free, one disconnect
    notification is spawned, nothing is sent; a channel that keeps two or
    more pins stays in the graph with its other pins attached. *)
Lemma detach_effect s p k :
  ch (pins s p) = Some k ->
  let rest := Pins (channels s k) ∖ {[p]} in
  let s1 := on_pin p (on_l Hide) (disconnect p s) in
  ch (pins s1 p) = None /\
  goroutines s1 = goroutines s ++ [go_reallyDisconnect p] /\
  wire s1 = wire s /\
  dragItem s1 = dragItem s /\
  graph_Channels s1
  = (if decide (size rest < 2)%nat
     then delete (channel_Name (channels s k)) (graph_Channels s)
     else graph_Channels s) /\
  ((2 <= size rest)%nat ->
     forall r, r <> p -> ch (pins s1 r) = ch (pins s r)).
Proof.
  intros Hk rest s1.
  destruct (disconnect_attached s p k Hk) as (ps & Hs & Hps).
  fold rest in Hs, Hps.
  subst s1. rewrite Hs. simpl. rewrite fn_lookup_insert. simpl.
  rewrite Hps, decide_True by done.
  repeat split; try done.
  intros Hge r Hr. unfold insert, fn_insert.
  rewrite decide_False by done.
  rewrite Hps, decide_False by done.
  rewrite decide_False; [done|lia].
Qed.

Lemma dragStartFree_goroutines p e s :
  goroutines (dragStartFree p e s) = goroutines s.
Proof. reflexivity. Qed.

Lemma dragStartFree_wire p e s : wire (dragStartFree p e s) = wire s.
Proof. reflexivity. Qed.

Lemma dragStartFree_channels p e s :
  channels (dragStartFree p e s) = channels s.
Proof. reflexivity. Qed.

(** X25. A drag that starts on a pin whose channel is left with exactly
    one other pin dissolves the channel and takes that pin instead: the
    channel's name is removed from the graph, both pins end unattached, the
    other pin becomes the dragged item, and one disconnect notification is
    spawned, for the pressed pin only. The channel's own [dragStart] is not
    called. *)
Theorem dragStart_last_pin_takes_over s p e k q :
  ch (pins s p) = Some k ->
  Pins (channels s k) ∖ {[p]} = {[q]} ->
  exists s',
    dragStart Channel_dragStart p e s = Some s' /\
    s' = dragStartFree q e (on_pin p (on_l Hide) (disconnect p s)) /\
    dragItem s' = Some (DragPin q) /\
    ch (pins s' q) = None /\
    ch (pins s' p) = None /\
    graph_Channels s'
    = delete (channel_Name (channels s k)) (graph_Channels s) /\
    goroutines s' = goroutines s ++ [go_reallyDisconnect p] /\
    wire s' = wire s.
Proof.
  intros Hk Hq.
  destruct (dragStart_attached_unfold s p e k Hk) as [_ Hstart].
  destruct (detach_effect s p k Hk) as (Hp & Hg & Hw & _ & HG & _).
  pose proof (dragStart_frees_last s p k q Hk) as Hfree. cbv zeta in Hfree.
  cbv zeta in Hstart, Hp, Hg, Hw, HG.
  rewrite Hq in Hstart, HG, Hfree.
  rewrite size_singleton in Hstart, HG, Hfree.
  rewrite decide_False in Hstart by lia.
  rewrite decide_True in HG by lia.
  rewrite elements_singleton in Hstart.
  specialize (Hfree ltac:(lia) ltac:(by apply elem_of_singleton)).
  unfold dragStartFuel in Hstart. rewrite Hfree in Hstart.
  eexists. split; [exact Hstart|]. split; [done|].
  split; [apply dragStartFree_dragItem|].
  rewrite !dragStartFree_ch, dragStartFree_graph_Channels,
    dragStartFree_goroutines, dragStartFree_wire.
  done.
Qed.

(** [dragStart] always comes back: the second call, if any, is on a pin
    that [disconnect] has just freed. *)
Lemma dragStart_total s p e : is_Some (dragStart Channel_dragStart p e s).
Proof.
  destruct (ch (pins s p)) as [k|] eqn:Hk.
  - destruct (dragStart_attached_unfold s p e k Hk) as [_ ->].
    set (rest := Pins (channels s k) ∖ {[p]}).
    destruct (decide (1 < size rest)%nat) as [Hge|Hlt]; [by eexists|].
    destruct (elements rest) as [|q qs] eqn:Hel; [by eexists|].
    assert (Hq : q ∈ rest).
    { apply elem_of_elements. rewrite Hel. left. }
    unfold dragStartFuel.
    rewrite (dragStart_frees_last s p k q Hk); [by eexists|fold rest; lia|done].
  - unfold dragStart. simpl. rewrite Hk. by eexists.
Qed.

End WithChannelMethods.

(** C5. A drag that starts on an attached pin takes the pin out of the
    channel's pin set, leaves it unattached and spawns one disconnect
    notification, sending nothing itself. If the channel keeps two or more
    pins, it persists (the graph's channels are as before and every other
    pin is attached as before) and a remaining pin, other than the pressed
    one, becomes the dragged item. The channel's own [dragStart] is the
    one modelled from the spec. *)
Theorem dragStart_attached s p e k :
  ch (pins s p) = Some k ->
  let rest := Pins (channels s k) ∖ {[p]} in
  exists s',
    dragStart Channel_dragStart_model p e s = Some s' /\
    Pins (channels s' k) = rest /\
    (p ∉ Pins (channels s' k)) /\
    ch (pins s' p) = None /\
    goroutines s' = goroutines s ++ [go_reallyDisconnect p] /\
    wire s' = wire s /\
    ((2 <= size rest)%nat ->
       graph_Channels s' = graph_Channels s /\
       (forall r, r <> p -> ch (pins s' r) = ch (pins s r)) /\
       exists q, q ∈ rest /\ q <> p /\ dragItem s' = Some (DragPin q)).
Proof.
  intros Hk rest.
  destruct (dragStart_attached_unfold Channel_dragStart_model s p e k Hk)
    as [HP Hstart].
  destruct (detach_effect s p k Hk) as (Hp & Hg & Hw & _ & HG & Hrest).
  pose proof (dragStart_frees_last s p k) as Hfree.
  cbv zeta in HP, Hstart, Hp, Hg, Hw, HG, Hrest, Hfree.
  fold rest in HP, Hstart, HG, Hrest, Hfree.
  set (s1 := on_pin p (on_l Hide) (disconnect p s)) in *.
  assert (Hnot : p ∉ rest) by apply not_in_rest.
  rewrite Hstart. clearbody s1.
  destruct (decide (1 < size rest)%nat) as [Hge|Hlt].
  - exists (Channel_dragStart_model k e s1). split; [done|].
    unfold Channel_dragStart_model. rewrite HP.
    destruct (elements rest) as [|q qs] eqn:Hel.
    { apply elements_empty_inv in Hel. apply leibniz_equiv in Hel.
      rewrite Hel, size_empty in Hge. lia. }
    assert (Hq : q ∈ rest).
    { apply elem_of_elements. rewrite Hel. left. }
    cbn [channels pins goroutines wire graph_Channels dragItem set_dragItem].
    rewrite HP.
    split; [done|]. split; [done|]. split; [done|].
    split; [done|]. split; [done|].
    intros _. rewrite HG, decide_False by lia.
    split; [done|]. split; [apply Hrest; lia|].
    exists q. split; [done|]. split; [|done].
    intros ->. done.
  - destruct (elements rest) as [|q qs] eqn:Hel.
    + exists (dragStartFree p e s1). split; [done|].
      rewrite dragStartFree_channels, dragStartFree_ch,
        dragStartFree_goroutines, dragStartFree_wire, HP.
      split; [done|]. split; [done|]. split; [done|].
      split; [done|]. split; [done|]. intros ?. lia.
    + assert (Hq : q ∈ rest).
      { apply elem_of_elements. rewrite Hel. left. }
      unfold dragStartFuel. rewrite (Hfree q Hk) by (done || lia).
      exists (dragStartFree q e s1). split; [done|].
      rewrite dragStartFree_channels, dragStartFree_ch,
        dragStartFree_goroutines, dragStartFree_wire, HP.
      split; [done|]. split; [done|]. split; [done|].
      split; [done|]. split; [done|]. intros ?. lia.
Qed.

(** C5, a run: A is pressed while on a channel with B and C. The channel
    keeps B and C and stays in the graph, A is free, and one of B and C is
    the dragged item. *)
Lemma dragStart_attached_sample :
  ch (pins Samples.threeAttached 0%nat) = Some 0%nat /\
  exists s',
    dragStart Channel_dragStart_model 0%nat (Samples.at_ 100 100)
      Samples.threeAttached = Some s' /\
    Pins (channels s' 0%nat) = {[1%nat; 2%nat]} /\
    ch (pins s' 0%nat) = None /\
    goroutines s' = [go_reallyDisconnect 0%nat] /\
    graph_Channels s' !! "channel0" = Some 0%nat /\
    exists q, q <> 0%nat /\ dragItem s' = Some (DragPin q).
Proof.
  split; [reflexivity|].
  destruct (dragStart_attached Samples.threeAttached 0%nat
              (Samples.at_ 100 100) 0%nat eq_refl)
    as (s' & Hrun & HP & _ & Hp & Hg & _ & Hmany).
  destruct Hmany as (HG & _ & q & _ & Hq & Hd); [by vm_compute|].
  exists s'. split; [exact Hrun|].
  split; [rewrite HP; apply leibniz_equiv, (bool_decide_unpack _); by vm_compute|].
  split; [exact Hp|]. split; [exact Hg|].
  split; [by rewrite HG|].
  by exists q.
Defined.

(** X25, a run: B is pressed while on a channel with C only. The channel
    is gone, both pins are free and C is the dragged item. *)
Lemma dragStart_last_pin_takes_over_sample :
  ch (pins Samples.loopback 1%nat) = Some 0%nat /\
  Pins (channels Samples.loopback 0%nat) ∖ {[1%nat]} = {[2%nat]} /\
  exists s',
    dragStart Channel_dragStart_model 1%nat (Samples.at_ 100 200)
      Samples.loopback = Some s' /\
    dragItem s' = Some (DragPin 2%nat) /\
    ch (pins s' 2%nat) = None /\
    graph_Channels s' !! "channel0" = None /\
    goroutines s' = [go_reallyDisconnect 1%nat].
Proof.
  assert (Hrest : Pins (channels Samples.loopback 0%nat) ∖ {[1%nat]}
                  = {[2%nat]})
    by (apply leibniz_equiv, (bool_decide_unpack _); by vm_compute).
  split; [reflexivity|]. split; [exact Hrest|].
  destruct (dragStart_last_pin_takes_over Channel_dragStart_model
              Samples.loopback 1%nat (Samples.at_ 100 200) 0%nat 2%nat
              eq_refl Hrest)
    as (s' & Hrun & _ & Hd & Hq & _ & HG & Hg & _).
  exists s'. split; [exact Hrun|]. split; [exact Hd|]. split; [exact Hq|].
  split; [rewrite HG; by vm_compute|exact Hg].
Defined.

Section WithNearestPoint.

Variable nearestPoint : State -> Z -> Z -> Z * Point.

(** The attribute writes of [noSnap] and of the deferred function leave
    everything but the look of the dragged pin alone. *)
Lemma noSnap_frame p cx cy s0 :
  let D := match ch (pins s0 p) with
           | Some k => disconnect p (record (setColour k normalColour) s0)
           | None => s0
           end in
  let s' := dragDeferred p cx cy (noSnap p s0) in
  channels s' = channels D /\ goroutines s' = goroutines D /\
  wire s' = wire D /\ errLabel s' = errLabel D /\
  graph_Channels s' = graph_Channels D /\ dragItem s' = dragItem D /\
  forall q, ch (pins s' q) = ch (pins D q).
Proof.
  intros D s'. subst s'. unfold noSnap, dragDeferred. fold D. clearbody D.
  repeat (split; [reflexivity|]).
  intros q. unfold on_pin. simpl. unfold insert, fn_insert.
  destruct (decide (p = q)) as [->|]; [|done].
  simpl. by rewrite !decide_True by done.
Qed.

(** C4, as amended. When the nearest point is the dragged pin itself, or
    its squared distance is at least [snapQuad] = 144 (so whenever it
    exceeds 144), [drag] takes the no-snap way out: it sends nothing and
    spawns no connect request, the error label is hidden and the pin ends
    unattached. If the pin was attached it is taken out of the channel's
    pin set and one disconnect notification is spawned; if it was free,
    nothing is spawned and the channels and the graph's channel map are
    what they were. *)
Theorem drag_out_of_reach s p e d q :
  nearestPoint s (cursorPos e s).1 (cursorPos e s).2 = (d, q) ->
  q = PtPin p \/ snapQuad <= d ->
  exists s',
    drag nearestPoint p e s = Some s' /\
    ch (pins s' p) = None /\
    wire s' = wire s /\
    visible (errLabel s') = false /\
    match ch (pins s p) with
    | Some k =>
        Pins (channels s' k) = Pins (channels s k) ∖ {[p]} /\
        goroutines s' = goroutines s ++ [go_reallyDisconnect p]
    | None =>
        goroutines s' = goroutines s /\
        channels s' = channels s /\
        graph_Channels s' = graph_Channels s
    end.
Proof.
  intros Hnear Hfar. unfold drag.
  destruct (cursorPos e s) as [cx cy]. simpl in Hnear. rewrite Hnear.
  assert (Hcond : bool_decide (PtPin p = q) || (snapQuad <=? d) = true).
  { destruct Hfar as [->|Hd].
    - by rewrite bool_decide_eq_true_2.
    - apply orb_true_iff. right. by apply Z.leb_le. }
  rewrite Hcond. eexists. split; [reflexivity|].
  pose proof (noSnap_frame p cx cy (clearError s)) as H. cbv zeta in H.
  destruct H as (Hc & Hg & Hw & He & HG & _ & Hch).
  rewrite Hch, Hw, He, Hc, Hg, HG.
  change (pins (clearError s)) with (pins s).
  destruct (ch (pins s p)) as [k|] eqn:Hk.
  - set (s0 := record (setColour k normalColour) (clearError s)).
    assert (Hk0 : ch (pins s0 p) = Some k) by exact Hk.
    destruct (disconnect_attached s0 p k Hk0) as (ps & Hs & Hps).
    rewrite Hs. simpl. rewrite fn_lookup_insert. simpl.
    by rewrite Hps, decide_True.
  - done.
Qed.

End WithNearestPoint.

(** C4, a run: A, snapped onto B, is dragged away to (200,150), where the
    nearest point is A itself, 12500 away in the square. *)
Lemma drag_out_of_reach_sample :
  Samples.nearestOfTwo Samples.snapped
    (cursorPos (Samples.at_ 200 150) Samples.snapped).1
    (cursorPos (Samples.at_ 200 150) Samples.snapped).2 = (12500, PtPin 0%nat) /\
  (PtPin 0%nat = PtPin 0%nat \/ snapQuad <= 12500) /\
  exists s',
    drag Samples.nearestOfTwo 0%nat (Samples.at_ 200 150) Samples.snapped = Some s' /\
    ch (pins s' 0%nat) = None /\
    wire s' = wire Samples.snapped.
Proof.
  split; [by vm_compute|]. split; [by left|].
  destruct (drag_out_of_reach Samples.nearestOfTwo Samples.snapped 0%nat
              (Samples.at_ 200 150) 12500 (PtPin 0%nat))
    as (s' & Hrun & Hch & Hwire & _).
  - by vm_compute.
  - by left.
  - exists s'. by repeat split.
Defined.

(** C4 as stated fails: the no-snap way out of [drag] spawns a disconnect
    notification for the pin it detaches, and the remote authority gets a
    [DisconnectPin] request from it. *)
Lemma drag_out_of_reach_notifies_remote :
  ch (pins Samples.snapped 0%nat) = Some 0%nat /\
  goroutines Samples.snapped = [] /\
  wire Samples.snapped = [] /\
  Samples.nearestOfTwo Samples.snapped 200 150 = (12500, PtPin 0%nat) /\
  exists s',
    drag Samples.nearestOfTwo 0%nat (Samples.at_ 200 150) Samples.snapped = Some s' /\
    goroutines s' = [go_reallyDisconnect 0%nat] /\
    exists s'',
      runNext Samples.accepting s' = Some s'' /\
      wire s'' = [DisconnectPinRequest "adder.szgo" "Gen" "A"].
Proof.
  split; [by vm_compute|]. split; [by vm_compute|]. split; [by vm_compute|].
  split; [by vm_compute|].
  eexists. split; [vm_compute; reflexivity|]. split; [reflexivity|].
  eexists. split; [vm_compute; reflexivity|]. reflexivity.
Qed.

Lemma drop_keeps_identity p e s :
  ch (pins (drop p e s) p) = ch (pins s p) /\
  node (pins (drop p e s) p) = node (pins s p) /\
  Pin_Name (pins (drop p e s) p) = Pin_Name (pins s p) /\
  channels (drop p e s) = channels s /\
  nodes (drop p e s) = nodes s /\
  graph_FilePath (drop p e s) = graph_FilePath s /\
  wire (drop p e s) = wire s.
Proof.
  unfold drop. cbn zeta.
  set (s0 := on_pin p (on_c Hide) _).
  assert (H0 : pins s0 p
               = on_c Hide (on_circ (SetAttribute "fill" (AStr normalColour))
                              (pins s p))).
  { subst s0. unfold on_pin. simpl. by rewrite !fn_lookup_insert. }
  assert (Hch : ch (pins s0 p) = ch (pins s p)) by (by rewrite H0).
  rewrite Hch.
  assert (Hc0 : channels s0 = channels s) by done.
  assert (Hn0 : nodes s0 = nodes s) by done.
  assert (Hf0 : graph_FilePath s0 = graph_FilePath s) by done.
  assert (Hw0 : wire s0 = wire s) by done.
  clearbody s0.
  destruct (ch (pins s p)) as [k|].
  - destruct (created (channels s0 k)); simpl;
      repeat split; try done; by rewrite H0.
  - unfold on_pin. simpl. rewrite fn_lookup_insert.
    repeat split; try done; by rewrite ?H0.
Qed.

(** C2, as amended. A drop on a pin whose channel has its [created] flag
    set spawns exactly one goroutine, a connect request for the dragged pin,
    and sends nothing itself. When that goroutine runs, one [ConnectPin]
    request goes out, carrying the graph's file path, the name of the
    dragged pin's node, the dragged pin's name and the channel's name. *)
Theorem drop_spawns_one_connect s p e k :
  ch (pins s p) = Some k ->
  created (channels s k) = true ->
  goroutines (drop p e s) = goroutines s ++ [go_reallyConnect p] /\
  wire (drop p e s) = wire s /\
  forall client, exists s',
    reallyConnect client p (drop p e s) = Some s' /\
    wire s' = wire s ++ [ConnectPinRequest (graph_FilePath s)
                           (node_Name (nodes s (node (pins s p))))
                           (Pin_Name (pins s p))
                           (channel_Name (channels s k))].
Proof.
  intros Hk Hcreated.
  destruct (drop_keeps_identity p e s) as (Hch & Hnode & Hname & Hc & Hn & Hf & Hw).
  split; [|split; [exact Hw|]].
  - unfold drop. cbn zeta.
    set (s0 := on_pin p (on_c Hide) _).
    assert (H0 : ch (pins s0 p) = Some k).
    { subst s0. unfold on_pin. simpl. by rewrite !fn_lookup_insert. }
    assert (Hc0 : channels s0 = channels s) by done.
    assert (Hg0 : goroutines s0 = goroutines s) by done.
    clearbody s0. rewrite H0, Hc0, Hcreated. simpl. by rewrite Hg0.
  - intros client. unfold reallyConnect.
    rewrite Hch, Hk, Hnode, Hname, Hc, Hn, Hf, Hw.
    destruct (client (wire s) _); eexists; (split; [reflexivity|]).
    + unfold setError. by destruct (decide _).
    + done.
Qed.

(** The gate of [drop]: with the flag unset, nothing is spawned. *)
Lemma drop_not_created_spawns_nothing s p e k :
  ch (pins s p) = Some k ->
  created (channels s k) = false ->
  goroutines (drop p e s) = goroutines s.
Proof.
  intros Hk Hcreated. unfold drop. cbn zeta.
  set (s0 := on_pin p (on_c Hide) _).
  assert (H0 : ch (pins s0 p) = Some k).
  { subst s0. unfold on_pin. simpl. by rewrite !fn_lookup_insert. }
  assert (Hc0 : channels s0 = channels s) by done.
  assert (Hg0 : goroutines s0 = goroutines s) by done.
  clearbody s0. rewrite H0, Hc0, Hcreated. simpl. by rewrite Hg0.
Qed.

(** C2, a run: A (on Gen) is released over B (on Sum); the request names
    Gen and A. *)
Lemma drop_spawns_one_connect_sample :
  ch (pins Samples.snapped 0%nat) = Some 0%nat /\
  created (channels Samples.snapped 0%nat) = true /\
  goroutines (drop 0%nat (Samples.at_ 301 199) Samples.snapped)
  = [go_reallyConnect 0%nat] /\
  exists s',
    reallyConnect Samples.accepting 0%nat
      (drop 0%nat (Samples.at_ 301 199) Samples.snapped) = Some s' /\
    wire s' = [ConnectPinRequest "adder.szgo" "Gen" "A" "channel0"].
Proof.
  assert (Hk : ch (pins Samples.snapped 0%nat) = Some 0%nat) by (by vm_compute).
  assert (Hc : created (channels Samples.snapped 0%nat) = true) by (by vm_compute).
  split; [exact Hk|]. split; [exact Hc|].
  destruct (drop_spawns_one_connect Samples.snapped 0%nat (Samples.at_ 301 199)
              0%nat Hk Hc) as (Hgo & _ & Hrun).
  split; [rewrite Hgo; by vm_compute|].
  destruct (Hrun Samples.accepting) as (s' & Hs' & Hwire).
  exists s'. split; [exact Hs'|]. rewrite Hwire. by vm_compute.
Defined.

(** C2 as stated fails: with A on Gen dragged onto B on Sum, the one
    request that goes out names Gen and A, not Sum and B. *)
Lemma connect_request_names_dragged_pin :
  exists s',
    Samples.releasedAndAnswered Samples.accepting = Some s' /\
    wire s' = [ConnectPinRequest "adder.szgo" "Gen" "A" "channel0"] /\
    wire s' <> [ConnectPinRequest "adder.szgo" "Sum" "B" "channel0"].
Proof.
  eexists. split; [vm_compute; reflexivity|]. split; [reflexivity|]. discriminate.
Qed.

(** C1, as amended. When the connect request is refused, [reallyConnect]
    changes no pin, no channel and not the graph's channel map: the channel
    stays in the graph and the pin stays attached. It shows the text
    "Couldn't connect: " followed by the failure text, with the label at
    (4,-36): the anchor it passes is (0,0), whatever the position of the
    drop. *)
Theorem reallyConnect_refused_keeps_edit client s p k err :
  ch (pins s p) = Some k ->
  client (wire s)
    (ConnectPinRequest (graph_FilePath s)
       (node_Name (nodes s (node (pins s p))))
       (Pin_Name (pins s p))
       (channel_Name (channels s k))) = Some err ->
  exists s',
    reallyConnect client p s = Some s' /\
    pins s' = pins s /\
    channels s' = channels s /\
    graph_Channels s' = graph_Channels s /\
    errLabel s' = {| text := "Couldn't connect: " +:+ err;
                     box_x := 4; box_y := -36; visible := true |}.
Proof.
  intros Hk Herr. unfold reallyConnect. rewrite Hk, Herr.
  eexists. split; [reflexivity|].
  unfold setError. rewrite decide_False by done. by simpl.
Qed.

(** C1, a run: the release over B, refused with "unavailable". *)
Lemma reallyConnect_refused_sample :
  ch (pins (drop 0%nat (Samples.at_ 301 199) Samples.snapped) 0%nat) = Some 0%nat /\
  exists s',
    reallyConnect Samples.refusing 0%nat
      (drop 0%nat (Samples.at_ 301 199) Samples.snapped) = Some s' /\
    graph_Channels s' !! "channel0" = Some 0%nat /\
    ch (pins s' 0%nat) = Some 0%nat /\
    errLabel s' = {| text := "Couldn't connect: unavailable";
                     box_x := 4; box_y := -36; visible := true |}.
Proof.
  assert (Hk : ch (pins (drop 0%nat (Samples.at_ 301 199) Samples.snapped) 0%nat)
               = Some 0%nat) by (by vm_compute).
  split; [exact Hk|].
  destruct (reallyConnect_refused_keeps_edit Samples.refusing
              (drop 0%nat (Samples.at_ 301 199) Samples.snapped) 0%nat 0%nat
              "unavailable" Hk eq_refl)
    as (s' & Hs' & Hp & _ & HG & Hlabel).
  exists s'. split; [exact Hs'|]. rewrite HG, Hp, Hlabel.
  split; [by vm_compute|]. split; [exact Hk|]. reflexivity.
Defined.

(** C1 as stated fails: after a release at (301,199) and a refusal, the
    label sits at (4,-36), not where [setError] puts a message for the
    position (301,199). *)
Lemma connect_failure_label_not_at_drop :
  exists s',
    Samples.releasedAndAnswered Samples.refusing = Some s' /\
    errLabel s' = {| text := "Couldn't connect: unavailable";
                     box_x := 4; box_y := -36; visible := true |} /\
    errLabel (setError "Couldn't connect: unavailable" 301 199 s')
    = {| text := "Couldn't connect: unavailable";
         box_x := 305; box_y := 163; visible := true |} /\
    errLabel s' <> errLabel (setError "Couldn't connect: unavailable" 301 199 s').
Proof.
  eexists. split; [vm_compute; reflexivity|]. split; [reflexivity|].
  split; [reflexivity|]. discriminate.
Qed.

End ProtocolFacts.

(** * The stores under [disconnect] *)

Module StoreFacts.
Import View.

Lemma disconnect_free s p : ch (pins s p) = None -> disconnect p s = s.
Proof. intros H. unfold disconnect. by rewrite H. Qed.

(** Everything [disconnect] does to an attached pin's diagram. *)
Lemma disconnect_effect s p k :
  ch (pins s p) = Some k ->
  let rest := Pins (channels s k) ∖ {[p]} in
  let s' := disconnect p s in
  (forall r, pins s' r
             = if decide (r = p) then set_ch None (pins s p)
               else if decide ((size rest < 2)%nat /\ r ∈ rest)
                    then set_ch None (pins s r)
                    else pins s r) /\
  (forall k', channels s' k'
              = if decide (k = k') then set_Pins rest (channels s k)
                else channels s k') /\
  graph_Channels s'
  = (if decide (size rest < 2)%nat
     then delete (channel_Name (channels s k)) (graph_Channels s)
     else graph_Channels s) /\
  goroutines s' = goroutines s ++ [go_reallyDisconnect p] /\
  wire s' = wire s /\
  nextChannel s' = nextChannel s /\
  nodes s' = nodes s /\
  errLabel s' = errLabel s /\
  dragItem s' = dragItem s /\
  graph_FilePath s' = graph_FilePath s.
Proof.
  intros Hk rest s'.
  destruct (ProtocolFacts.disconnect_attached s p k Hk) as (ps & Hs & Hps).
  fold rest in Hs, Hps. subst s'. rewrite Hs. simpl.
  split; [exact Hps|]. split; [|done].
  intros k'. unfold insert, fn_insert. by destruct (decide (k = k')).
Qed.

(** [disconnect] rewrites attachments and pin sets, nothing else of a pin
    or a channel. *)
Lemma disconnect_pin_cases s p r :
  pins (disconnect p s) r = pins s r \/
  pins (disconnect p s) r = set_ch None (pins s r).
Proof.
  destruct (ch (pins s p)) as [k|] eqn:Hk.
  - destruct (disconnect_effect s p k Hk) as (Hp & _). rewrite Hp.
    destruct (decide (r = p)) as [->|]; [by right|].
    destruct (decide _); [by right|by left].
  - left. by rewrite disconnect_free.
Qed.

Lemma disconnect_channel_cases s p k' :
  channels (disconnect p s) k' = channels s k' \/
  (ch (pins s p) = Some k' /\
   channels (disconnect p s) k'
   = set_Pins (Pins (channels s k') ∖ {[p]}) (channels s k')).
Proof.
  destruct (ch (pins s p)) as [k|] eqn:Hk.
  - destruct (disconnect_effect s p k Hk) as (_ & Hc & _). rewrite Hc.
    destruct (decide (k = k')) as [->|]; [by right|by left].
  - left. by rewrite disconnect_free.
Qed.

Lemma disconnect_nextChannel s p : nextChannel (disconnect p s) = nextChannel s.
Proof.
  destruct (ch (pins s p)) as [k|] eqn:Hk.
  - by destruct (disconnect_effect s p k Hk) as (_ & _ & _ & _ & _ & ? & _).
  - by rewrite disconnect_free.
Qed.

Lemma disconnect_wire s p : wire (disconnect p s) = wire s.
Proof.
  destruct (ch (pins s p)) as [k|] eqn:Hk.
  - by destruct (disconnect_effect s p k Hk) as (_ & _ & _ & _ & ? & _).
  - by rewrite disconnect_free.
Qed.

Lemma disconnect_registry s p n k' :
  graph_Channels (disconnect p s) !! n = Some k' ->
  graph_Channels s !! n = Some k' /\
  (ch (pins s p) = Some k' ->
   (2 <= size (Pins (channels s k') ∖ {[p]}))%nat \/
   n <> channel_Name (channels s k')).
Proof.
  destruct (ch (pins s p)) as [k|] eqn:Hk.
  - destruct (disconnect_effect s p k Hk) as (_ & _ & HG & _). rewrite HG.
    destruct (decide _) as [Hlt|Hge].
    + intros [Hne Hn]%lookup_delete_Some. split; [done|].
      intros [= <-]. right. done.
    + intros Hn. split; [done|]. intros [= <-]. left. lia.
  - rewrite disconnect_free by done. intros Hn. split; [done|]. done.
Qed.

End StoreFacts.

Module WiringFacts.
Import View Wellformed StoreFacts.

Lemma same_pin_refl P : same_pin P P.
Proof. by repeat split. Qed.

Lemma same_wiring_refl s : same_wiring s s.
Proof. split; [intros r; apply same_pin_refl|done]. Qed.

Lemma same_wiring_trans s1 s2 s3 :
  same_wiring s1 s2 -> same_wiring s2 s3 -> same_wiring s1 s3.
Proof.
  intros (Hp & Hc & Hn & Hf & Hg & Hx) (Hp' & Hc' & Hn' & Hf' & Hg' & Hx').
  split; [|split; [|repeat split; congruence]].
  - intros r. destruct (Hp r) as (?&?&?&?&?&?&?), (Hp' r) as (?&?&?&?&?&?&?).
    repeat split; congruence.
  - intros k. by rewrite Hc', Hc.
Qed.

(** Writing the look of one pin. *)
Lemma same_wiring_look p F s :
  (forall P, same_pin P (F P)) -> same_wiring s (on_pin p F s).
Proof.
  intros HF. split; [|done]. intros r. unfold on_pin. simpl.
  unfold insert, fn_insert. destruct (decide (p = r)) as [->|]; [apply HF|].
  apply same_pin_refl.
Qed.

Lemma same_pin_on_circ f P : same_pin P (on_circ f P).
Proof. by repeat split. Qed.
Lemma same_pin_on_l f P : same_pin P (on_l f P).
Proof. by repeat split. Qed.
Lemma same_pin_on_c f P : same_pin P (on_c f P).
Proof. by repeat split. Qed.

Lemma same_wiring_setError err x y s : same_wiring s (setError err x y s).
Proof.
  unfold setError. destruct (decide _); (split; [intros r; apply same_pin_refl|done]).
Qed.

Lemma same_wiring_dragDeferred p x y s : same_wiring s (dragDeferred p x y s).
Proof.
  unfold dragDeferred.
  eapply same_wiring_trans; apply same_wiring_look; intros P; apply same_pin_on_l || apply same_pin_on_c.
Qed.

Lemma same_wiring_dragStartFree p e s : same_wiring s (dragStartFree p e s).
Proof.
  unfold dragStartFree. destruct (cursorPos e _) as [x y].
  eapply same_wiring_trans; [|apply same_wiring_look; intros P; apply same_pin_on_c].
  eapply same_wiring_trans; [|apply same_wiring_look; intros P; apply same_pin_on_l].
  eapply same_wiring_trans; [|apply same_wiring_look; intros P; apply same_pin_on_circ].
  split; [intros r; apply same_pin_refl|done].
Qed.

(** [consistent] looks at the wiring only. *)
Lemma consistent_same_wiring s s' :
  same_wiring s s' -> consistent s -> consistent s'.
Proof.
  intros (Hp & Hc & _ & _ & Hg & Hx) [Ha Hr]. split.
  - intros r k Hk. destruct (Hp r) as (_ & Ht & _ & _ & Hch & _).
    rewrite Hch in Hk. destruct (Ha r k Hk) as (? & ? & ?).
    rewrite Hc, Hx, Ht. done.
  - intros n k Hn. rewrite Hg in Hn. destruct (Hr n k Hn) as (? & ? & ?).
    rewrite Hc, Hx. done.
Qed.

End WiringFacts.

Module ConnectFacts.
Import View Wellformed StoreFacts WiringFacts.

(** A pin that is still attached after [disconnect] is another pin, and
    untouched. *)
Lemma disconnect_ch_Some s p r k' :
  ch (pins (disconnect p s) r) = Some k' ->
  r <> p /\ pins (disconnect p s) r = pins s r.
Proof.
  destruct (ch (pins s p)) as [k|] eqn:Hk.
  - destruct (disconnect_effect s p k Hk) as (Hp & _). rewrite Hp.
    destruct (decide (r = p)) as [->|]; [done|].
    destruct (decide _); [done|]. done.
  - rewrite disconnect_free by done. intros Hr. split; [|done].
    intros ->. congruence.
Qed.

Lemma disconnect_ch_self s p : ch (pins (disconnect p s) p) = None.
Proof.
  destruct (ch (pins (disconnect p s) p)) as [k|] eqn:H; [|done].
  by destruct (disconnect_ch_Some s p p k H).
Qed.

(** [disconnect] keeps names, types, directions, nodes and places. *)
Lemma disconnect_pin_static s p r :
  Pin_Name (pins (disconnect p s) r) = Pin_Name (pins s r) /\
  Pin_Type (pins (disconnect p s) r) = Pin_Type (pins s r) /\
  input (pins (disconnect p s) r) = input (pins s r) /\
  node (pins (disconnect p s) r) = node (pins s r).
Proof. by destruct (disconnect_pin_cases s p r) as [->| ->]. Qed.

Lemma disconnect_channel_static s p k :
  channel_Name (channels (disconnect p s) k) = channel_Name (channels s k) /\
  channel_Type (channels (disconnect p s) k) = channel_Type (channels s k) /\
  created (channels (disconnect p s) k) = created (channels s k) /\
  Pins (channels (disconnect p s) k) ⊆ Pins (channels s k).
Proof.
  destruct (disconnect_channel_cases s p k) as [->|[_ ->]]; [done|].
  simpl. repeat split. apply subseteq_difference_l. done.
Qed.

(** [disconnect] keeps a sound diagram sound. *)
Lemma disconnect_keeps_consistent s p :
  consistent s -> consistent (disconnect p s).
Proof.
  intros [Ha Hr]. split.
  - intros r k' Hk'.
    destruct (disconnect_ch_Some s p r k' Hk') as [Hne Hsame].
    rewrite Hsame in Hk' |- *.
    destruct (Ha r k' Hk') as (Hin & Hlt & Hty).
    rewrite disconnect_nextChannel.
    destruct (disconnect_channel_cases s p k') as [->|[_ ->]]; [done|].
    simpl. split; [|done].
    apply elem_of_difference. split; [done|]. by rewrite elem_of_singleton.
  - intros n k' Hn.
    destruct (disconnect_registry s p n k' Hn) as [Hn0 Hcase].
    destruct (Hr n k' Hn0) as (Hname & Hlt & Hsz).
    rewrite disconnect_nextChannel.
    destruct (disconnect_channel_cases s p k') as [->|[Hk ->]]; [done|].
    simpl. split; [done|]. split; [done|].
    destruct (Hcase Hk) as [?|Hne]; [done|]. by destruct Hne.
Qed.

(** The step of [connectTo] that attaches the pin to a channel. *)
Lemma attach_keeps_consistent s p k :
  consistent s ->
  (k < nextChannel s)%nat ->
  channel_Type (channels s k) = Pin_Type (pins s p) ->
  consistent
    (record (reposition k)
       (on_channel k (fun K => set_Pins ({[p]} ∪ Pins K) K)
          (on_pin p (set_ch (Some k)) s))).
Proof.
  intros [Ha Hr] Hlt Hty. split.
  - intros r k'. simpl. unfold insert, fn_insert.
    destruct (decide (p = r)) as [<-|Hne]; simpl.
    + intros [= <-]. rewrite decide_True by done. simpl.
      split; [apply elem_of_union_l; by apply elem_of_singleton|done].
    + intros Hk'. destruct (Ha r k' Hk') as (Hin & ? & ?).
      destruct (decide (k = k')) as [<-|Hkk].
      * rewrite !decide_True by done. simpl.
        split; [by apply elem_of_union_r|done].
      * rewrite !decide_False by done. by repeat split.
  - intros n k' Hn. simpl in *. destruct (Hr n k' Hn) as (? & ? & Hsz).
    unfold insert, fn_insert.
    destruct (decide (k = k')) as [<-|Hkk].
    + rewrite !decide_True by done. simpl.
      split; [done|]. split; [done|].
      etrans; [exact Hsz|]. apply subseteq_size, union_subseteq_r.
    + rewrite !decide_False by done. by repeat split.
Qed.

(** [connectTo] at a channel. *)
Lemma connectToChannel_keeps_consistent s p k :
  consistent s ->
  (k < nextChannel s)%nat ->
  channel_Type (channels s k) = Pin_Type (pins s p) ->
  consistent (connectToChannel p k s).
Proof.
  intros Hs Hlt Hty. unfold connectToChannel. cbn zeta.
  set (s1 := match ch (pins s p) with
             | Some k0 => if decide (k0 <> k) then disconnect p s else s
             | None => s
             end).
  assert (H1 : consistent s1 /\ nextChannel s1 = nextChannel s /\
               channel_Type (channels s1 k) = channel_Type (channels s k) /\
               Pin_Type (pins s1 p) = Pin_Type (pins s p)).
  { subst s1. destruct (ch (pins s p)) as [k0|]; [|done].
    destruct (decide (k0 <> k)); [|done].
    split; [by apply disconnect_keeps_consistent|].
    split; [apply disconnect_nextChannel|].
    split; [apply disconnect_channel_static|apply disconnect_pin_static]. }
  destruct H1 as (Hc1 & Hn1 & Ht1 & Hp1). clearbody s1.
  apply attach_keeps_consistent; [done|lia|congruence].
Qed.

(** The step of [connectTo] that makes a channel for two pins, field by
    field. *)
Lemma create_effect s p q :
  let s' :=
    (let '(k, s) := createChannel p q s in
     let s := record (reposition k) s in
     let s := on_pin p (set_ch (Some k)) s in
     let s := on_pin q (set_ch (Some k)) s in
     let s := set_graph_Channels
                (<[channel_Name (channels s k) := k]> (graph_Channels s)) s in
     on_pin q (on_l Show) s) in
  let k := nextChannel s in
  (forall r, ch (pins s' r)
             = if decide (r = p \/ r = q) then Some k else ch (pins s r)) /\
  (forall r, Pin_Name (pins s' r) = Pin_Name (pins s r) /\
             Pin_Type (pins s' r) = Pin_Type (pins s r) /\
             input (pins s' r) = input (pins s r) /\
             node (pins s' r) = node (pins s r)) /\
  shown (Pin_l (pins s' q)) = true /\
  (forall k', k' <> k -> channels s' k' = channels s k') /\
  Pins (channels s' k) = {[p; q]} /\
  channel_Type (channels s' k) = Pin_Type (pins s p) /\
  graph_Channels s' = <[channel_Name (channels s' k) := k]> (graph_Channels s) /\
  nextChannel s' = S k /\
  goroutines s' = goroutines s /\
  wire s' = wire s /\
  errLabel s' = errLabel s.
Proof.
  intros s' k. subst s'. unfold createChannel. cbn zeta.
  fold k.
  cbn [pins channels graph_Channels nextChannel goroutines wire errLabel
       set_pins set_channels set_graph_Channels set_nextChannel set_calls
       on_pin record].
  rewrite !fn_lookup_insert.
  split; [|split; [|split; [|split; [|by repeat split]]]].
  - intros r. unfold insert, fn_insert.
    destruct (decide (r = p \/ r = q)) as [Hr|Hr].
    + destruct (decide (q = r)) as [<-|Hq]; [done|].
      destruct (decide (p = r)) as [<-|Hp]; [done|].
      destruct Hr; congruence.
    + destruct (decide (q = r)) as [<-|Hq]; [destruct Hr; by right|].
      destruct (decide (p = r)) as [<-|Hp]; [destruct Hr; by left|done].
  - intros r. unfold insert, fn_insert.
    destruct (decide (q = r)) as [<-|Hq].
    + destruct (decide (p = q)) as [->|]; done.
    + destruct (decide (p = r)) as [<-|Hp]; done.
  - unfold insert, fn_insert. by destruct (decide (q = q)).
  - intros k' Hk'. unfold insert, fn_insert.
    destruct (decide (k = k')); [congruence|done].
Qed.

(** The step of [connectTo] that makes a channel for two pins. *)
Lemma create_keeps_consistent s p q :
  consistent s ->
  p <> q ->
  Pin_Type (pins s q) = Pin_Type (pins s p) ->
  consistent
    (let '(k, s) := createChannel p q s in
     let s := record (reposition k) s in
     let s := on_pin p (set_ch (Some k)) s in
     let s := on_pin q (set_ch (Some k)) s in
     let s := set_graph_Channels
                (<[channel_Name (channels s k) := k]> (graph_Channels s)) s in
     on_pin q (on_l Show) s).
Proof.
  intros [Ha Hr] Hpq Hty.
  pose proof (create_effect s p q) as H. cbv zeta in H.
  set (s' := let '(k, s0) := createChannel p q s in _) in *.
  destruct H as (Hch & Hst & _ & Hoth & HP & HT & HG & HN & _).
  split.
  - intros r k'. rewrite Hch, HN.
    destruct (Hst r) as (_ & Htr & _). rewrite Htr.
    destruct (decide (r = p \/ r = q)) as [Hr'|Hr'].
    + intros [= <-]. rewrite HP, HT.
      split; [destruct Hr' as [->| ->]; apply elem_of_union;
              [left|right]; by apply elem_of_singleton|].
      split; [lia|]. destruct Hr' as [->| ->]; done.
    + intros Hk'. destruct (Ha r k' Hk') as (Hin & Hlt & Ht).
      rewrite Hoth by lia. split; [done|]. split; [lia|done].
  - intros n k'. rewrite HG, HN. intros Hn.
    apply lookup_insert_Some in Hn as [[<- <-]|[Hne Hn]].
    + split; [done|]. split; [lia|]. rewrite HP.
      rewrite size_union by (by apply disjoint_singleton_l, not_elem_of_singleton).
      rewrite !size_singleton. lia.
    + destruct (Hr n k' Hn) as (? & Hlt & ?).
      rewrite Hoth by lia. split; [done|]. split; [lia|done].
Qed.

(** What an approval tells about the types. *)
Lemma approved_types s p q :
  checkConnectionTo s p q = None -> pointType s q = Pin_Type (pins s p).
Proof.
  intros H. destruct (decide (pointType s q = Pin_Type (pins s p))) as [|Hne]; [done|].
  destruct (ValidatorFacts.checkConnectionTo_type_mismatch_first s p q Hne) as [H' _].
  congruence.
Qed.

Lemma approved_attached s p q k :
  ch (pins s q) = Some k ->
  checkConnectionTo s p (PtPin q) = None ->
  checkConnectionToChannel s p k = None.
Proof.
  intros Hk. simpl. rewrite Hk. by destruct (decide _).
Qed.

Lemma approved_free s p q :
  ch (pins s q) = None ->
  checkConnectionTo s p (PtPin q) = None ->
  Pin_Type (pins s q) = Pin_Type (pins s p) /\
  input (pins s p) <> input (pins s q) /\
  node (pins s p) <> node (pins s q).
Proof.
  intros Hfree. rewrite ValidatorFacts.checkConnectionTo_free_target by done.
  destruct (decide (Pin_Type (pins s q) <> Pin_Type (pins s p))) as [|Ht]; [done|].
  apply dec_stable in Ht.
  destruct (bool_decide (input (pins s p) = input (pins s q))) eqn:Hd; [done|].
  apply bool_decide_eq_false in Hd.
  destruct (decide (node (pins s p) = node (pins s q))); [done|]. done.
Qed.

(** The first step of the [*Pin] case of [connectTo]. *)
Lemma leave_other s p q :
  let s1 := match ch (pins s p) with
            | Some k =>
                if decide (Some k <> ch (pins s q)) then disconnect p s else s
            | None => s
            end in
  (s1 = s \/ (s1 = disconnect p s /\ ch (pins s p) <> ch (pins s q) /\
              is_Some (ch (pins s p)))) /\
  (ch (pins s1 p) = None \/ ch (pins s1 p) = ch (pins s1 q)).
Proof.
  intros s1. subst s1. destruct (ch (pins s p)) as [k|] eqn:Hk.
  - destruct (decide (Some k <> ch (pins s q))) as [Hne|Heq].
    + split; [right; by eauto|]. left. apply disconnect_ch_self.
    + apply dec_stable in Heq. split; [by left|]. right. congruence.
  - split; [by left|]. by left.
Qed.

(** [connectTo] keeps a sound diagram sound, if the validator has approved
    the connection and the target, if a channel, was made. *)
Lemma connectTo_keeps_consistent s p q :
  consistent s ->
  made s q ->
  checkConnectionTo s p q = None ->
  consistent (connectTo p q s).
Proof.
  intros Hs Hmade Hok. pose proof (approved_types s p q Hok) as Hty.
  destruct q as [q|k]; simpl in Hmade, Hty.
  - unfold connectTo. cbn zeta.
    pose proof (leave_other s p q) as H1. cbv zeta in H1.
    set (s1 := match ch (pins s p) with
               | Some k => if decide (Some k <> ch (pins s q))
                           then disconnect p s else s
               | None => s
               end) in *.
    destruct H1 as [Hs1 _].
    assert (Hc1 : consistent s1).
    { destruct Hs1 as [->|[-> _]]; [done|by apply disconnect_keeps_consistent]. }
    assert (Ht1 : forall r, Pin_Type (pins s1 r) = Pin_Type (pins s r)).
    { intros r. destruct Hs1 as [->|[-> _]]; [done|apply disconnect_pin_static]. }
    clearbody s1.
    destruct (ch (pins s1 q)) as [k|] eqn:Hq1.
    + destruct (proj1 Hc1 q k Hq1) as (_ & Hlt & Htk).
      apply connectToChannel_keeps_consistent; [done|done|].
      rewrite Htk, !Ht1. done.
    + apply create_keeps_consistent; [done| |by rewrite !Ht1].
      intros <-. destruct Hs1 as [->|[-> [Hne _]]]; [|done].
      by destruct (approved_free s p p Hq1 Hok) as (_ & _ & ?).
  - by apply connectToChannel_keeps_consistent.
Qed.

(** [connectTo] at a channel the pin is free of or already on. *)
Lemma connectToChannel_effect s p k :
  ch (pins s p) = None \/ ch (pins s p) = Some k ->
  let s' := connectToChannel p k s in
  (forall r, pins s' r
             = if decide (p = r) then set_ch (Some k) (pins s p) else pins s r) /\
  (forall k', channels s' k'
              = if decide (k = k')
                then set_Pins ({[p]} ∪ Pins (channels s k)) (channels s k)
                else channels s k') /\
  graph_Channels s' = graph_Channels s /\
  goroutines s' = goroutines s /\
  wire s' = wire s /\
  nextChannel s' = nextChannel s /\
  errLabel s' = errLabel s /\
  nodes s' = nodes s /\
  graph_FilePath s' = graph_FilePath s.
Proof.
  intros Hp s'. subst s'. unfold connectToChannel.
  assert (H1 : match ch (pins s p) with
               | Some k0 => if decide (k0 <> k) then disconnect p s else s
               | None => s
               end = s).
  { destruct Hp as [->| ->]; [done|]. by rewrite decide_False by (by intros ?). }
  cbn zeta. rewrite H1. by repeat split.
Qed.

(** [connectTo] at a channel, coming from another one. *)
Lemma connectToChannel_moving s p k k0 :
  ch (pins s p) = Some k0 -> k0 <> k ->
  connectToChannel p k s = connectToChannel p k (disconnect p s).
Proof.
  intros Hk0 Hne. unfold connectToChannel. cbn zeta.
  rewrite Hk0, decide_True by done. by rewrite disconnect_ch_self.
Qed.

(** After [connectTo] the pin is attached and listed: on the channel, or on
    the channel the target pin is attached to. *)
Lemma connectTo_attaches s p q :
  exists k,
    ch (pins (connectTo p q s) p) = Some k /\
    p ∈ Pins (channels (connectTo p q s) k) /\
    match q with
    | PtPin q0 => ch (pins (connectTo p q s) q0) = Some k
    | PtChannel k0 => k = k0
    end.
Proof.
  destruct q as [q|k].
  - unfold connectTo. cbn zeta.
    pose proof (leave_other s p q) as H1. cbv zeta in H1.
    set (s1 := match ch (pins s p) with
               | Some k => if decide (Some k <> ch (pins s q))
                           then disconnect p s else s
               | None => s
               end) in *.
    destruct H1 as [_ Hp1]. clearbody s1.
    destruct (ch (pins s1 q)) as [k|] eqn:Hq1.
    + assert (Hp1' : ch (pins s1 p) = None \/ ch (pins s1 p) = Some k)
        by (destruct Hp1; [by left|right; congruence]).
      destruct (connectToChannel_effect s1 p k Hp1') as (Hpins & Hchan & _).
      exists k. rewrite !Hpins, Hchan. rewrite !decide_True by done.
      split; [done|]. simpl.
      split; [apply elem_of_union_l; by apply elem_of_singleton|].
      destruct (decide (p = q)) as [->|]; done.
    + pose proof (create_effect s1 p q) as H. cbv zeta in H.
      destruct H as (Hch & _ & _ & _ & HP & _). exists (nextChannel s1).
      rewrite !Hch, HP. rewrite !decide_True; [|by right|by left].
      split; [done|]. split; [|done].
      apply elem_of_union_l. by apply elem_of_singleton.
  - exists k. unfold connectTo, connectToChannel. cbn zeta.
    simpl. rewrite !fn_lookup_insert. simpl.
    split; [done|]. split; [|done].
    apply elem_of_union_l. by apply elem_of_singleton.
Qed.

(** [connectTo] keeps names, types, directions and nodes. *)
Lemma connectTo_pin_static s p q r :
  Pin_Name (pins (connectTo p q s) r) = Pin_Name (pins s r) /\
  Pin_Type (pins (connectTo p q s) r) = Pin_Type (pins s r) /\
  input (pins (connectTo p q s) r) = input (pins s r) /\
  node (pins (connectTo p q s) r) = node (pins s r).
Proof.
  assert (Hc : forall k s0,
             Pin_Name (pins (connectToChannel p k s0) r) = Pin_Name (pins s0 r) /\
             Pin_Type (pins (connectToChannel p k s0) r) = Pin_Type (pins s0 r) /\
             input (pins (connectToChannel p k s0) r) = input (pins s0 r) /\
             node (pins (connectToChannel p k s0) r) = node (pins s0 r)).
  { intros k s0. unfold connectToChannel. cbn zeta. simpl.
    set (s1 := match ch (pins s0 p) with
               | Some k0 => if decide (k0 <> k) then disconnect p s0 else s0
               | None => s0
               end).
    assert (H1 : forall r', Pin_Name (pins s1 r') = Pin_Name (pins s0 r') /\
                   Pin_Type (pins s1 r') = Pin_Type (pins s0 r') /\
                   input (pins s1 r') = input (pins s0 r') /\
                   node (pins s1 r') = node (pins s0 r')).
    { intros r'. subst s1. destruct (ch (pins s0 p)); [|done].
      destruct (decide _); [apply disconnect_pin_static|done]. }
    clearbody s1. unfold insert, fn_insert.
    destruct (decide (p = r)) as [<-|]; [|apply H1]. simpl. apply H1. }
  destruct q as [q|k]; [|apply Hc].
  unfold connectTo. cbn zeta.
  set (s1 := match ch (pins s p) with
             | Some k => if decide (Some k <> ch (pins s q))
                         then disconnect p s else s
             | None => s
             end).
  assert (H1 : forall r', Pin_Name (pins s1 r') = Pin_Name (pins s r') /\
                 Pin_Type (pins s1 r') = Pin_Type (pins s r') /\
                 input (pins s1 r') = input (pins s r') /\
                 node (pins s1 r') = node (pins s r')).
  { intros r'. subst s1. destruct (ch (pins s p)); [|done].
    destruct (decide _); [apply disconnect_pin_static|done]. }
  clearbody s1.
  destruct (ch (pins s1 q)) as [k|].
  - destruct (Hc k s1) as (-> & -> & -> & ->). apply H1.
  - pose proof (create_effect s1 p q) as H. cbv zeta in H.
    destruct H as (_ & Hst & _). destruct (Hst r) as (-> & -> & -> & ->).
    apply H1.
Qed.

(** [connectTo] sends nothing, leaves the error label alone and spawns at
    most one goroutine, a disconnect notification for the pin. *)
Lemma connectTo_traffic s p q :
  wire (connectTo p q s) = wire s /\
  errLabel (connectTo p q s) = errLabel s /\
  (goroutines (connectTo p q s) = goroutines s \/
   (is_Some (ch (pins s p)) /\
    goroutines (connectTo p q s) = goroutines s ++ [go_reallyDisconnect p])).
Proof.
  assert (Hd : forall s0, wire (disconnect p s0) = wire s0 /\
                 errLabel (disconnect p s0) = errLabel s0 /\
                 (goroutines (disconnect p s0) = goroutines s0 \/
                  (is_Some (ch (pins s0 p)) /\
                   goroutines (disconnect p s0)
                   = goroutines s0 ++ [go_reallyDisconnect p]))).
  { intros s0. destruct (ch (pins s0 p)) as [k|] eqn:Hk.
    - destruct (disconnect_effect s0 p k Hk) as (_&_&_&Hg&Hw&_&_&He&_).
      split; [done|]. split; [done|]. right. by eauto.
    - rewrite disconnect_free by done. by repeat split; left. }
  assert (Hc : forall k, wire (connectToChannel p k s) = wire s /\
                 errLabel (connectToChannel p k s) = errLabel s /\
                 (goroutines (connectToChannel p k s) = goroutines s \/
                  (is_Some (ch (pins s p)) /\
                   goroutines (connectToChannel p k s)
                   = goroutines s ++ [go_reallyDisconnect p]))).
  { intros k. destruct (ch (pins s p)) as [k0|] eqn:Hk0.
    - destruct (decide (k0 = k)) as [->|Hne].
      + destruct (connectToChannel_effect s p k) as (_&_&_&Hg&Hw&_&He&_);
          [by right|]. split; [done|]. split; [done|]. by left.
      + rewrite (connectToChannel_moving s p k k0) by done.
        destruct (connectToChannel_effect (disconnect p s) p k)
          as (_&_&_&Hg&Hw&_&He&_); [left; apply disconnect_ch_self|].
        rewrite Hg, Hw, He. destruct (Hd s) as (-> & -> & [Hg'|[_ Hg']]).
        * split; [done|]. split; [done|]. by left.
        * split; [done|]. split; [done|]. right. by eauto.
    - destruct (connectToChannel_effect s p k) as (_&_&_&Hg&Hw&_&He&_);
        [by left|]. split; [done|]. split; [done|]. by left. }
  destruct q as [q|k]; [|apply Hc].
  unfold connectTo. cbn zeta.
  pose proof (leave_other s p q) as H1. cbv zeta in H1.
  set (s1 := match ch (pins s p) with
             | Some k => if decide (Some k <> ch (pins s q))
                         then disconnect p s else s
             | None => s
             end) in *.
  destruct H1 as [Hs1 Hp1].
  assert (H1 : wire s1 = wire s /\ errLabel s1 = errLabel s /\
               (goroutines s1 = goroutines s \/
                (is_Some (ch (pins s p)) /\
                 goroutines s1 = goroutines s ++ [go_reallyDisconnect p]))).
  { destruct Hs1 as [->|[-> _]]; [by repeat split; left|apply Hd]. }
  clearbody s1. destruct H1 as (Hw1 & He1 & Hg1).
  destruct (ch (pins s1 q)) as [k|] eqn:Hq1.
  - assert (Hp1' : ch (pins s1 p) = None \/ ch (pins s1 p) = Some k)
      by (destruct Hp1; [by left|right; congruence]).
    destruct (connectToChannel_effect s1 p k Hp1') as (_&_&_&Hg&Hw&_&He&_).
    rewrite Hg, Hw, He. done.
  - pose proof (create_effect s1 p q) as H. cbv zeta in H.
    destruct H as (_&_&_&_&_&_&_&_&Hg&Hw&He).
    rewrite Hg, Hw, He. done.
Qed.

End ConnectFacts.

Module HandlerFacts.
Import View Wellformed StoreFacts WiringFacts ConnectFacts.

(** What [noSnap] leaves after detaching the pin is the wiring of the
    detached diagram. *)
Lemma noSnap_wiring p s :
  same_wiring
    (match ch (pins s p) with
     | Some k => disconnect p (record (setColour k normalColour) s)
     | None => s
     end)
    (noSnap p s).
Proof.
  unfold noSnap. cbn zeta.
  eapply same_wiring_trans; [|apply same_wiring_look; intros P; apply same_pin_on_c].
  eapply same_wiring_trans; [|apply same_wiring_look; intros P; apply same_pin_on_l].
  apply same_wiring_look. intros P. apply same_pin_on_circ.
Qed.

Lemma noSnap_traffic p s :
  wire (noSnap p s) = wire s /\
  errLabel (noSnap p s) = errLabel s /\
  dragItem (noSnap p s) = dragItem s /\
  goroutines (noSnap p s)
  = goroutines s ++ match ch (pins s p) with
                    | Some _ => [go_reallyDisconnect p]
                    | None => []
                    end.
Proof.
  unfold noSnap. cbn zeta. simpl.
  destruct (ch (pins s p)) as [k|] eqn:Hk.
  - assert (Hk' : ch (pins (record (setColour k normalColour) s) p) = Some k)
      by exact Hk.
    destruct (disconnect_effect _ p k Hk') as (_&_&_&Hg&Hw&_&_&He&Hd&_).
    rewrite Hg, Hw, He, Hd. done.
  - by rewrite app_nil_r.
Qed.

Lemma noSnap_detached p s : ch (pins (noSnap p s) p) = None.
Proof.
  destruct (noSnap_wiring p s) as (Hp & _).
  destruct (Hp p) as (_&_&_&_&Hch&_). rewrite Hch.
  destruct (ch (pins s p)) as [k|] eqn:Hk; [apply disconnect_ch_self|done].
Qed.

Lemma noSnap_keeps_consistent p s : consistent s -> consistent (noSnap p s).
Proof.
  intros Hs. eapply consistent_same_wiring; [apply noSnap_wiring|].
  destruct (ch (pins s p)) as [k|]; [|done].
  apply disconnect_keeps_consistent.
  eapply consistent_same_wiring; [|exact Hs].
  split; [intros r; apply same_pin_refl|done].
Qed.

(** [noSnap] attaches nothing. *)
Lemma noSnap_no_new p s r k :
  ch (pins (noSnap p s) r) = Some k -> ch (pins s r) = Some k.
Proof.
  destruct (noSnap_wiring p s) as (Hp & _).
  destruct (Hp r) as (_&_&_&_&Hch&_). rewrite Hch.
  destruct (ch (pins s p)) as [k0|]; [|done].
  intros H. destruct (disconnect_ch_Some _ p r k H) as [_ Heq].
  by rewrite Heq in H.
Qed.

Lemma same_wiring_drop p e s : same_wiring s (drop p e s).
Proof.
  unfold drop. cbn zeta.
  set (s0 := on_pin p (on_c Hide) _).
  assert (H0 : same_wiring s s0).
  { subst s0.
    eapply same_wiring_trans; [|apply same_wiring_look; intros P; apply same_pin_on_c].
    eapply same_wiring_trans; [|apply same_wiring_look; intros P; apply same_pin_on_circ].
    split; [intros r; apply same_pin_refl|done]. }
  clearbody s0.
  destruct (ch (pins s0 p)) as [k|].
  - eapply same_wiring_trans; [exact H0|].
    destruct (created (channels s0 k));
      (split; [intros r; apply same_pin_refl|done]).
  - eapply same_wiring_trans; [exact H0|].
    eapply same_wiring_trans; [apply same_wiring_look; intros P; apply same_pin_on_l|].
    split; [intros r; apply same_pin_refl|done].
Qed.

Lemma same_wiring_reallyDisconnect client p s :
  same_wiring s (reallyDisconnect client p s).
Proof.
  unfold reallyDisconnect. cbn zeta.
  destruct (client _ _); [|split; [intros r; apply same_pin_refl|done]].
  eapply same_wiring_trans; [|apply same_wiring_setError].
  split; [intros r; apply same_pin_refl|done].
Qed.

Lemma same_wiring_reallyConnect client p s s' :
  reallyConnect client p s = Some s' -> same_wiring s s'.
Proof.
  unfold reallyConnect. destruct (ch (pins s p)) as [k|]; [|done]. cbn zeta.
  destruct (client _ _); intros [= <-].
  - eapply same_wiring_trans; [|apply same_wiring_setError].
    split; [intros r; apply same_pin_refl|done].
  - split; [intros r; apply same_pin_refl|done].
Qed.

Section WithNearestPoint.

Variable nearestPoint : State -> Z -> Z -> Z * Point.

(** The three ways through [drag]. *)
Lemma drag_cases s p e :
  let x := (cursorPos e s).1 in
  let y := (cursorPos e s).2 in
  let d := (nearestPoint s x y).1 in
  let q := (nearestPoint s x y).2 in
  ((q = PtPin p \/ snapQuad <= d) /\
   drag nearestPoint p e s
   = Some (dragDeferred p x y (noSnap p (clearError s)))) \/
  (q <> PtPin p /\ d < snapQuad /\
   exists err,
     checkConnectionTo s p q = Some err /\
     drag nearestPoint p e s
     = Some (dragDeferred p x y
               (noSnap p (setError ("Can't connect: " +:+ err) x y s)))) \/
  (q <> PtPin p /\ d < snapQuad /\
   checkConnectionTo s p q = None /\
   exists k x' y',
     ch (pins (connectTo p q s) p) = Some k /\
     match q with
     | PtPin q0 => ch (pins (connectTo p q s) q0) = Some k
     | PtChannel k0 => k = k0
     end /\
     drag nearestPoint p e s
     = Some (dragDeferred p x' y'
               (on_pin p (on_c Hide)
                  (record (setColour k activeColour)
                     (clearError (connectTo p q s)))))).
Proof.
  intros x y d q. subst x y d q. unfold drag.
  destruct (cursorPos e s) as [x y]. simpl.
  destruct (nearestPoint s x y) as [d q]. simpl.
  destruct (bool_decide (PtPin p = q) || (snapQuad <=? d)) eqn:Hcond.
  - left. split; [|done]. apply orb_true_iff in Hcond as [H|H].
    + left. by apply bool_decide_eq_true in H.
    + right. by apply Z.leb_le.
  - apply orb_false_iff in Hcond as [Hq Hd].
    apply bool_decide_eq_false in Hq. apply Z.leb_gt in Hd.
    right. destruct (checkConnectionTo s p q) as [err|] eqn:Hcheck.
    + left. split; [congruence|]. split; [done|]. by exists err.
    + right. split; [congruence|]. split; [done|]. split; [done|].
      destruct (connectTo_attaches s p q) as (k & Hp & _ & Hq').
      cbn zeta. rewrite Hp. exists k.
      destruct q as [q|k0].
      * rewrite Hq'. simpl. by eexists _, _.
      * subst k0. by eexists _, _.
Qed.

End WithNearestPoint.

End HandlerFacts.

(** * The sample diagrams are sound *)

Module SampleFacts.
Import View Wellformed.

Lemma twoFree_consistent : consistent Samples.twoFree.
Proof.
  split.
  - intros r k H. destruct r as [|[|r]]; discriminate H.
  - intros n k H.
    change (graph_Channels Samples.twoFree) with (∅ : gmap string ChanId) in H.
    by rewrite lookup_empty in H.
Qed.

Lemma threeAttached_consistent : consistent Samples.threeAttached.
Proof.
  split.
  - intros r k H. destruct r as [|[|[|r]]]; try discriminate H;
      injection H as <-;
      (split; [apply (bool_decide_unpack _); by vm_compute|]);
      (split; [by vm_compute|reflexivity]).
  - intros n k H.
    change (graph_Channels Samples.threeAttached)
      with ({[ "channel0" := 0%nat ]} : gmap string ChanId) in H.
    apply lookup_singleton_Some in H as [<- <-].
    split; [reflexivity|]. split; [by vm_compute|]. vm_compute. lia.
Qed.

End SampleFacts.

(** * More on the validator *)

Module ValidatorMore.
Import View.

Lemma checkConnectionTo_free_pin_iff_aux s p q :
  ch (pins s q) = None ->
  checkConnectionTo s p (PtPin q) = None <->
  Pin_Type (pins s q) = Pin_Type (pins s p) /\
  input (pins s p) <> input (pins s q) /\
  node (pins s p) <> node (pins s q).
Proof.
  intros Hfree. split; [by apply ConnectFacts.approved_free|].
  intros (Ht & Hd & Hn).
  rewrite ValidatorFacts.checkConnectionTo_free_target by done.
  rewrite decide_False by (by intros ?).
  rewrite bool_decide_eq_false_2 by done.
  by rewrite decide_False.
Qed.

(** X1. Against a free pin the validator approves exactly when the types
    agree, the directions differ and the pins sit on different nodes; it
    then names the first check that fails: type, direction, node. *)
Theorem checkConnectionTo_free_pin_iff s p q :
  ch (pins s q) = None ->
  (checkConnectionTo s p (PtPin q) = None <->
   Pin_Type (pins s q) = Pin_Type (pins s p) /\
   input (pins s p) <> input (pins s q) /\
   node (pins s p) <> node (pins s q)) /\
  (Pin_Type (pins s q) = Pin_Type (pins s p) ->
   input (pins s p) = input (pins s q) ->
   checkConnectionTo s p (PtPin q) = Some "both pins have the same direction") /\
  (Pin_Type (pins s q) = Pin_Type (pins s p) ->
   input (pins s p) <> input (pins s q) ->
   node (pins s p) = node (pins s q) ->
   checkConnectionTo s p (PtPin q) = Some "both pins are on the same goroutine").
Proof.
  intros Hfree. split; [by apply checkConnectionTo_free_pin_iff_aux|].
  rewrite ValidatorFacts.checkConnectionTo_free_target by done. split.
  - intros Ht Hd. rewrite decide_False by (by intros ?).
    by rewrite bool_decide_eq_true_2.
  - intros Ht Hd Hn. rewrite decide_False by (by intros ?).
    rewrite bool_decide_eq_false_2 by done. by rewrite decide_True.
Qed.

Lemma checkConnectionTo_free_pin_iff_sample :
  ch (pins Samples.twoFree 1%nat) = None /\
  checkConnectionTo Samples.twoFree 0%nat (PtPin 1%nat) = None.
Proof.
  split; [reflexivity|].
  apply (proj1 (checkConnectionTo_free_pin_iff Samples.twoFree 0%nat 1%nat eq_refl)).
  by vm_compute.
Defined.

(** X2. Between two free pins the verdict does not depend on which of the
    two is dragged: one way is approved exactly when the other is. *)
Theorem checkConnectionTo_free_pins_symmetric s p q :
  ch (pins s p) = None ->
  ch (pins s q) = None ->
  checkConnectionTo s p (PtPin q) = None <->
  checkConnectionTo s q (PtPin p) = None.
Proof.
  intros Hp Hq.
  rewrite !checkConnectionTo_free_pin_iff_aux by done.
  split; intros (Ht & Hd & Hn); repeat split; congruence.
Qed.

Lemma checkConnectionTo_free_pins_symmetric_sample :
  ch (pins Samples.twoFree 0%nat) = None /\
  ch (pins Samples.twoFree 1%nat) = None /\
  (checkConnectionTo Samples.twoFree 0%nat (PtPin 1%nat) = None <->
   checkConnectionTo Samples.twoFree 1%nat (PtPin 0%nat) = None).
Proof.
  split; [reflexivity|]. split; [reflexivity|].
  exact (checkConnectionTo_free_pins_symmetric Samples.twoFree 0%nat 1%nat
           eq_refl eq_refl).
Defined.

(** X3. Against a channel the validator approves exactly when the channel
    has the pin's type and lists a pin of the other direction. *)
Theorem checkConnectionTo_channel_iff s p k :
  checkConnectionTo s p (PtChannel k) = None <->
  channel_Type (channels s k) = Pin_Type (pins s p) /\
  exists r, r ∈ Pins (channels s k) /\ input (pins s r) <> input (pins s p).
Proof. apply ValidatorFacts.checkConnectionToChannel_approves. Qed.

(** X4. An attached pin of the dragged pin's type is judged exactly as the
    channel it is attached to, message included. *)
Theorem checkConnectionTo_attached_pin_as_channel s p q k :
  ch (pins s q) = Some k ->
  Pin_Type (pins s q) = Pin_Type (pins s p) ->
  checkConnectionTo s p (PtPin q) = checkConnectionTo s p (PtChannel k).
Proof.
  intros Hk Ht. simpl. rewrite Hk. by rewrite decide_False by (intros ?; congruence).
Qed.

Lemma checkConnectionTo_attached_pin_as_channel_sample :
  ch (pins Samples.loopback 1%nat) = Some 0%nat /\
  Pin_Type (pins Samples.loopback 1%nat) = Pin_Type (pins Samples.loopback 3%nat) /\
  checkConnectionTo Samples.loopback 3%nat (PtPin 1%nat)
  = checkConnectionTo Samples.loopback 3%nat (PtChannel 0%nat).
Proof.
  split; [reflexivity|]. split; [reflexivity|].
  exact (checkConnectionTo_attached_pin_as_channel Samples.loopback 3%nat 1%nat
           0%nat eq_refl eq_refl).
Defined.

(** X5. A channel of the pin's type whose listed pins all have the pin's
    direction, the empty channel among them, is refused for want of an
    input and an output. *)
Theorem checkConnectionTo_uniform_channel s p k :
  channel_Type (channels s k) = Pin_Type (pins s p) ->
  (forall r, r ∈ Pins (channels s k) -> input (pins s r) = input (pins s p)) ->
  checkConnectionTo s p (PtChannel k)
  = Some "must connect at least one input and one output".
Proof.
  intros Ht Hall. simpl. unfold checkConnectionToChannel.
  rewrite decide_False by (intros ?; congruence).
  destruct (forallb _ _) eqn:Hf; [done|].
  apply ValidatorFacts.forallb_false_elem in Hf as (r & Hr & Hd).
  apply bool_decide_eq_false in Hd. destruct Hd. apply Hall.
  by apply elem_of_elements.
Qed.

Lemma checkConnectionTo_uniform_channel_sample :
  channel_Type (channels (disconnect 0%nat Samples.threeAttached) 0%nat)
  = Pin_Type (pins (disconnect 0%nat Samples.threeAttached) 3%nat) /\
  checkConnectionTo (disconnect 0%nat Samples.threeAttached) 3%nat (PtChannel 0%nat)
  = Some "must connect at least one input and one output".
Proof.
  split; [by vm_compute|].
  apply (checkConnectionTo_uniform_channel
           (disconnect 0%nat Samples.threeAttached) 3%nat 0%nat).
  - by vm_compute.
  - intros r Hr.
    assert (HP : Pins (channels (disconnect 0%nat Samples.threeAttached) 0%nat)
                 = {[1%nat; 2%nat]}) by (by vm_compute).
    rewrite HP in Hr.
    apply elem_of_union in Hr as [Hr|Hr]; apply elem_of_singleton in Hr;
      subst r; by vm_compute.
Defined.

End ValidatorMore.

(** * More on [connectTo] *)

Module ConnectMore.
Import View Wellformed StoreFacts WiringFacts ConnectFacts.

Lemma set_Pins_id K : set_Pins (Pins K) K = K.
Proof. by destruct K. Qed.

Lemma set_ch_id P : set_ch (ch P) P = P.
Proof. by destruct P. Qed.

(** The target pin is still free when the dragged pin has left its own
    channel. *)
Lemma leave_other_free s p q :
  ch (pins s q) = None ->
  ch (pins (match ch (pins s p) with
            | Some k =>
                if decide (Some k <> ch (pins s q)) then disconnect p s else s
            | None => s
            end) q) = None.
Proof.
  intros Hq. destruct (ch (pins s p)) as [k|]; [|done].
  destruct (decide _); [|done].
  destruct (disconnect_pin_cases s p q) as [->| ->]; done.
Qed.

(** [connectTo] at a channel adds the pin to the channel's pin set. *)
Lemma connectToChannel_pins s p k :
  Pins (channels (connectToChannel p k s) k) = {[p]} ∪ Pins (channels s k).
Proof.
  destruct (ch (pins s p)) as [k0|] eqn:Hk0.
  - destruct (decide (k0 = k)) as [->|Hne].
    + destruct (connectToChannel_effect s p k) as (_ & Hc & _); [by right|].
      by rewrite Hc, !decide_True by done.
    + rewrite (connectToChannel_moving s p k k0) by done.
      destruct (connectToChannel_effect (disconnect p s) p k)
        as (_ & Hc & _); [left; apply disconnect_ch_self|].
      rewrite Hc, !decide_True by done. simpl.
      destruct (disconnect_effect s p k0 Hk0) as (_ & Hc0 & _).
      by rewrite Hc0, decide_False by done.
  - destruct (connectToChannel_effect s p k) as (_ & Hc & _); [by left|].
    by rewrite Hc, !decide_True by done.
Qed.

(** X6. Connecting a pin to a channel attaches the pin to it and adds the
    pin to the channel's pin set, whatever the pin was attached to before;
    no other pin is added, and nothing is sent. *)
Theorem connectTo_channel_attaches s p k :
  let s' := connectTo p (PtChannel k) s in
  ch (pins s' p) = Some k /\
  Pins (channels s' k) = {[p]} ∪ Pins (channels s k) /\
  wire s' = wire s /\
  forall r k', r <> p -> ch (pins s' r) = Some k' -> ch (pins s r) = Some k'.
Proof.
  intros s'. subst s'.
  destruct (connectTo_attaches s p (PtChannel k)) as (k1 & Hp & _ & ->).
  destruct (connectTo_traffic s p (PtChannel k)) as (Hw & _).
  change (connectTo p (PtChannel k) s) with (connectToChannel p k s) in *.
  split; [done|]. split; [apply connectToChannel_pins|]. split; [done|].
  intros r k' Hr. unfold connectToChannel. cbn zeta. simpl.
  unfold insert, fn_insert. rewrite decide_False by done.
  destruct (ch (pins s p)) as [k0|]; [|done].
  destruct (decide (k0 <> k)); [|done].
  intros H. destruct (disconnect_ch_Some s p r k' H) as [_ Heq].
  by rewrite Heq in H.
Qed.

(** X7. Connecting a pin that sits on another channel takes it off that
    channel first: it leaves the old pin set, one disconnect notification is
    spawned, and if fewer than two pins are left there, the old channel's
    name is removed from the graph and the pins left on it are freed. *)
Theorem connectTo_channel_moves s p k k0 :
  ch (pins s p) = Some k0 ->
  k0 <> k ->
  let rest := Pins (channels s k0) ∖ {[p]} in
  let s' := connectTo p (PtChannel k) s in
  Pins (channels s' k0) = rest /\
  goroutines s' = goroutines s ++ [go_reallyDisconnect p] /\
  ((size rest < 2)%nat ->
     graph_Channels s' !! channel_Name (channels s k0) = None /\
     forall r, r ∈ rest -> ch (pins s' r) = None).
Proof.
  intros Hk0 Hne rest s'. subst s'.
  change (connectTo p (PtChannel k) s) with (connectToChannel p k s).
  rewrite (connectToChannel_moving s p k k0) by done.
  destruct (connectToChannel_effect (disconnect p s) p k)
    as (Hp & Hc & HG & Hg & _); [left; apply disconnect_ch_self|].
  destruct (disconnect_effect s p k0 Hk0) as (Hp0 & Hc0 & HG0 & Hg0 & _).
  fold rest in Hp0, Hc0, HG0.
  rewrite Hc, HG, Hg, decide_False by done.
  rewrite Hc0, HG0, Hg0, decide_True by done.
  split; [done|]. split; [done|]. intros Hlt.
  rewrite decide_True by done. split; [apply lookup_delete_eq|].
  intros r Hr. rewrite Hp.
  assert (Hrp : r <> p).
  { intros ->. by apply (ProtocolFacts.not_in_rest p (Pins (channels s k0))). }
  rewrite decide_False by done. rewrite Hp0, decide_False by done.
  by rewrite decide_True.
Qed.

Lemma connectTo_channel_moves_sample :
  ch (pins MoreSamples.twoChannels 0%nat) = Some 0%nat /\
  0%nat <> 1%nat /\
  goroutines (connectTo 0%nat (PtChannel 1%nat) MoreSamples.twoChannels)
  = [go_reallyDisconnect 0%nat] /\
  graph_Channels (connectTo 0%nat (PtChannel 1%nat) MoreSamples.twoChannels)
    !! "channel0" = None /\
  ch (pins (connectTo 0%nat (PtChannel 1%nat) MoreSamples.twoChannels) 1%nat) = None.
Proof.
  split; [reflexivity|]. split; [lia|].
  pose proof (connectTo_channel_moves MoreSamples.twoChannels 0%nat 1%nat 0%nat
                eq_refl ltac:(lia)) as H.
  cbv zeta in H. destruct H as (_ & Hg & Hdrop).
  split; [exact Hg|].
  destruct Hdrop as [Hgone Hfree]; [vm_compute; lia|].
  split; [exact Hgone|].
  apply Hfree. apply (bool_decide_unpack _). by vm_compute.
Defined.

(** [connectTo] at the channel the pin is on and listed by. *)
Lemma connectToChannel_again s p k :
  ch (pins s p) = Some k ->
  p ∈ Pins (channels s k) ->
  same_wiring s (connectToChannel p k s) /\
  goroutines (connectToChannel p k s) = goroutines s /\
  wire (connectToChannel p k s) = wire s /\
  errLabel (connectToChannel p k s) = errLabel s.
Proof.
  intros Hk Hin.
  destruct (connectToChannel_effect s p k)
    as (Hp & Hc & HG & Hg & Hw & Hx & He & Hn & Hf); [by right|].
  split; [|done].
  split; [|split; [|done]].
  - intros r. rewrite Hp. destruct (decide (p = r)) as [<-|]; [|apply same_pin_refl].
    rewrite <- Hk, set_ch_id. apply same_pin_refl.
  - intros k'. rewrite Hc. destruct (decide (k = k')) as [<-|]; [|done].
    assert (HU : {[p]} ∪ Pins (channels s k) = Pins (channels s k)).
    { apply subseteq_union_1_L. by apply singleton_subseteq_l. }
    by rewrite HU, set_Pins_id.
Qed.

(** X8. Connecting a pin to the channel it is already on, named as such
    or through a pin attached to it, changes nothing of the wiring, spawns
    nothing and sends nothing. *)
Theorem connectTo_channel_again s p q k :
  ch (pins s p) = Some k ->
  p ∈ Pins (channels s k) ->
  q = PtChannel k \/ (exists q0, q = PtPin q0 /\ ch (pins s q0) = Some k) ->
  let s' := connectTo p q s in
  same_wiring s s' /\
  goroutines s' = goroutines s /\
  wire s' = wire s /\
  errLabel s' = errLabel s.
Proof.
  intros Hk Hin [->|(q0 & -> & Hq0)] s'; subst s'.
  - by apply connectToChannel_again.
  - unfold connectTo. cbn zeta. rewrite Hk, Hq0.
    rewrite decide_False by (by intros ?). rewrite Hq0.
    by apply connectToChannel_again.
Qed.

Lemma connectTo_channel_again_sample :
  ch (pins Samples.threeAttached 0%nat) = Some 0%nat /\
  0%nat ∈ Pins (channels Samples.threeAttached 0%nat) /\
  (PtPin 1%nat = PtChannel 0%nat \/
   exists q0, PtPin 1%nat = PtPin q0 /\
              ch (pins Samples.threeAttached q0) = Some 0%nat) /\
  goroutines (connectTo 0%nat (PtPin 1%nat) Samples.threeAttached) = [] /\
  Pins (channels (connectTo 0%nat (PtPin 1%nat) Samples.threeAttached) 0%nat)
  = Pins (channels Samples.threeAttached 0%nat).
Proof.
  assert (Hin : 0%nat ∈ Pins (channels Samples.threeAttached 0%nat))
    by (apply (bool_decide_unpack _); by vm_compute).
  assert (Hq : PtPin 1%nat = PtChannel 0%nat \/
               exists q0, PtPin 1%nat = PtPin q0 /\
                          ch (pins Samples.threeAttached q0) = Some 0%nat)
    by (right; by exists 1%nat).
  split; [reflexivity|]. split; [exact Hin|]. split; [exact Hq|].
  pose proof (connectTo_channel_again Samples.threeAttached 0%nat (PtPin 1%nat)
                0%nat eq_refl Hin Hq) as H.
  cbv zeta in H. destruct H as ((_ & Hc & _) & Hg & _).
  split; [exact Hg|]. by rewrite Hc.
Defined.

(** X9. Connecting a pin to a free pin attaches both to one channel, puts
    that channel into the graph under its own name and shows the target's
    line; nothing is sent. *)
Theorem connectTo_free_pin_creates s p q :
  ch (pins s q) = None ->
  let s' := connectTo p (PtPin q) s in
  exists k,
    ch (pins s' p) = Some k /\
    ch (pins s' q) = Some k /\
    graph_Channels s' !! channel_Name (channels s' k) = Some k /\
    shown (Pin_l (pins s' q)) = true /\
    wire s' = wire s.
Proof.
  intros Hq s'. subst s'. unfold connectTo. cbn zeta.
  pose proof (leave_other_free s p q Hq) as Hq1.
  pose proof (leave_other s p q) as H1. cbv zeta in H1.
  set (s1 := match ch (pins s p) with
             | Some k => if decide (Some k <> ch (pins s q))
                         then disconnect p s else s
             | None => s
             end) in *.
  destruct H1 as [Hs1 _].
  assert (Hw1 : wire s1 = wire s).
  { destruct Hs1 as [->|[-> _]]; [done|apply disconnect_wire]. }
  clearbody s1. rewrite Hq1.
  pose proof (create_effect s1 p q) as H. cbv zeta in H.
  destruct H as (Hch & _ & Hshown & _ & _ & _ & HG & _ & _ & Hw & _).
  exists (nextChannel s1). rewrite !Hch.
  rewrite !decide_True; [|by right|by left].
  split; [done|]. split; [done|].
  split; [rewrite HG; apply lookup_insert_eq|].
  split; [done|]. by rewrite Hw.
Qed.

Lemma connectTo_free_pin_creates_sample :
  ch (pins Samples.twoFree 1%nat) = None /\
  exists k,
    ch (pins (connectTo 0%nat (PtPin 1%nat) Samples.twoFree) 0%nat) = Some k /\
    ch (pins (connectTo 0%nat (PtPin 1%nat) Samples.twoFree) 1%nat) = Some k.
Proof.
  split; [reflexivity|].
  destruct (connectTo_free_pin_creates Samples.twoFree 0%nat 1%nat eq_refl)
    as (k & Hp & Hq & _).
  by exists k.
Defined.

(** X10. If the validator has approved the connection (and the target, if
    a channel, was made), [connectTo] keeps a sound diagram sound; and
    where the target is a channel or a free pin, the channel the pin ends
    on joins an input and an output. *)
Theorem connectTo_approved s p q :
  consistent s ->
  made s q ->
  checkConnectionTo s p q = None ->
  consistent (connectTo p q s) /\
  ((forall q0, q = PtPin q0 -> ch (pins s q0) = None) ->
   exists k, ch (pins (connectTo p q s) p) = Some k /\
             mixed (connectTo p q s) k).
Proof.
  intros Hs Hmade Hok. split; [by apply connectTo_keeps_consistent|].
  intros Hfree.
  assert (Hmix : forall s' k a b,
             a ∈ Pins (channels s' k) -> b ∈ Pins (channels s' k) ->
             input (pins s' a) <> input (pins s' b) -> mixed s' k).
  { intros s' k a b Ha Hb Hab. unfold mixed.
    destruct (input (pins s' a)) eqn:Ea, (input (pins s' b)) eqn:Eb; try done.
    - split; [by exists a|by exists b].
    - split; [by exists b|by exists a]. }
  destruct q as [q|k].
  - specialize (Hfree q eq_refl).
    destruct (approved_free s p q Hfree Hok) as (_ & Hd & _).
    unfold connectTo. cbn zeta.
    pose proof (leave_other_free s p q Hfree) as Hq1.
    set (s1 := match ch (pins s p) with
               | Some k => if decide (Some k <> ch (pins s q))
                           then disconnect p s else s
               | None => s
               end) in *.
    assert (Hin1 : forall r, input (pins s1 r) = input (pins s r)).
    { intros r. subst s1. destruct (ch (pins s p)); [|done].
      destruct (decide _); [apply disconnect_pin_static|done]. }
    clearbody s1. rewrite Hq1.
    pose proof (create_effect s1 p q) as H. cbv zeta in H.
    destruct H as (Hch & Hst & _ & _ & HP & _).
    exists (nextChannel s1). rewrite Hch, decide_True by (by left).
    split; [done|]. apply (Hmix _ _ p q).
    + rewrite HP. apply elem_of_union_l. by apply elem_of_singleton.
    + rewrite HP. apply elem_of_union_r. by apply elem_of_singleton.
    + destruct (Hst p) as (_ & _ & -> & _), (Hst q) as (_ & _ & -> & _).
      by rewrite !Hin1.
  - apply ValidatorFacts.checkConnectionToChannel_approves in Hok
      as (_ & r & Hr & Hd).
    destruct (connectTo_attaches s p (PtChannel k)) as (k1 & Hp & _ & ->).
    pose proof (connectToChannel_pins s p k) as HP.
    change (connectToChannel p k s) with (connectTo p (PtChannel k) s) in HP.
    exists k. split; [done|]. apply (Hmix _ _ r p).
    + rewrite HP. by apply elem_of_union_r.
    + rewrite HP. apply elem_of_union_l. by apply elem_of_singleton.
    + destruct (connectTo_pin_static s p (PtChannel k) r) as (_ & _ & -> & _).
      destruct (connectTo_pin_static s p (PtChannel k) p) as (_ & _ & -> & _).
      done.
Qed.

Lemma connectTo_approved_sample :
  consistent Samples.threeAttached /\
  made Samples.threeAttached (PtChannel 0%nat) /\
  checkConnectionTo Samples.threeAttached 3%nat (PtChannel 0%nat) = None /\
  consistent (connectTo 3%nat (PtChannel 0%nat) Samples.threeAttached) /\
  mixed (connectTo 3%nat (PtChannel 0%nat) Samples.threeAttached) 0%nat.
Proof.
  assert (Hmade : made Samples.threeAttached (PtChannel 0%nat))
    by (vm_compute; lia).
  assert (Hok : checkConnectionTo Samples.threeAttached 3%nat (PtChannel 0%nat)
                = None) by (by vm_compute).
  split; [exact SampleFacts.threeAttached_consistent|].
  split; [exact Hmade|]. split; [exact Hok|].
  destruct (connectTo_approved Samples.threeAttached 3%nat
              (PtChannel 0%nat) SampleFacts.threeAttached_consistent Hmade Hok)
    as [Hc Hm].
  split; [exact Hc|].
  destruct Hm as (k & Hk & Hmix); [intros q0 Hq0; discriminate Hq0|].
  assert (k = 0%nat) as ->.
  { assert (H : ch (pins (connectTo 3%nat (PtChannel 0%nat)
                            Samples.threeAttached) 3%nat) = Some 0%nat)
      by (by vm_compute).
    congruence. }
  exact Hmix.
Defined.

(** X23. [disconnect] keeps a sound diagram sound and only detaches: the
    pin ends unattached, no pin gets attached, no channel gains a pin and
    nothing is sent; on an unattached pin it does nothing at all, not even
    spawn a notification. *)
Theorem disconnect_sound_and_only_detaches s p :
  consistent s ->
  consistent (disconnect p s) /\
  ch (pins (disconnect p s) p) = None /\
  (forall r k, ch (pins (disconnect p s) r) = Some k -> ch (pins s r) = Some k) /\
  (forall k, Pins (channels (disconnect p s) k) ⊆ Pins (channels s k)) /\
  wire (disconnect p s) = wire s /\
  (ch (pins s p) = None -> disconnect p s = s).
Proof.
  intros Hs. split; [by apply disconnect_keeps_consistent|].
  split; [apply disconnect_ch_self|]. split.
  { intros r k H. destruct (disconnect_ch_Some s p r k H) as [_ Heq].
    by rewrite Heq in H. }
  split; [intros k; apply disconnect_channel_static|].
  split; [apply disconnect_wire|apply disconnect_free].
Qed.

Lemma disconnect_sound_and_only_detaches_sample :
  consistent Samples.threeAttached /\
  consistent (disconnect 0%nat Samples.threeAttached) /\
  ch (pins (disconnect 0%nat Samples.threeAttached) 0%nat) = None.
Proof.
  split; [exact SampleFacts.threeAttached_consistent|].
  destruct (disconnect_sound_and_only_detaches Samples.threeAttached 0%nat
              SampleFacts.threeAttached_consistent) as (Hc & Hp & _).
  by split.
Defined.

(** What [connectTo] at a free pin leaves. *)
Lemma connectTo_free_pin_effect s p q :
  ch (pins s q) = None ->
  exists k,
    ch (pins (connectTo p (PtPin q) s) p) = Some k /\
    ch (pins (connectTo p (PtPin q) s) q) = Some k /\
    Pins (channels (connectTo p (PtPin q) s) k) = {[p; q]} /\
    channel_Type (channels (connectTo p (PtPin q) s) k) = Pin_Type (pins s p).
Proof.
  intros Hq. unfold connectTo. cbn zeta.
  pose proof (leave_other_free s p q Hq) as Hq1.
  set (s1 := match ch (pins s p) with
             | Some k => if decide (Some k <> ch (pins s q))
                         then disconnect p s else s
             | None => s
             end) in *.
  assert (Ht1 : Pin_Type (pins s1 p) = Pin_Type (pins s p)).
  { subst s1. destruct (ch (pins s p)); [|done].
    destruct (decide _); [apply disconnect_pin_static|done]. }
  clearbody s1. rewrite Hq1.
  pose proof (create_effect s1 p q) as H. cbv zeta in H.
  destruct H as (Hch & _ & _ & _ & HP & HT & _).
  exists (nextChannel s1). rewrite !Hch.
  rewrite !decide_True; [|by right|by left].
  by rewrite HP, HT, Ht1.
Qed.

(** X24. Snapping is stable: after an approved connection to a free pin,
    the same connection is approved again, and making it again changes
    nothing of the wiring, spawns nothing and sends nothing. *)
Theorem connectTo_free_pin_again s p q :
  ch (pins s q) = None ->
  checkConnectionTo s p (PtPin q) = None ->
  let s1 := connectTo p (PtPin q) s in
  checkConnectionTo s1 p (PtPin q) = None /\
  same_wiring s1 (connectTo p (PtPin q) s1) /\
  goroutines (connectTo p (PtPin q) s1) = goroutines s1 /\
  wire (connectTo p (PtPin q) s1) = wire s1.
Proof.
  intros Hq Hok s1.
  destruct (approved_free s p q Hq Hok) as (Hty & Hdir & _).
  destruct (connectTo_free_pin_effect s p q Hq) as (k & Hp1 & Hq1 & HP & HT).
  fold s1 in Hp1, Hq1, HP, HT.
  assert (Hst : forall r, Pin_Type (pins s1 r) = Pin_Type (pins s r) /\
                          input (pins s1 r) = input (pins s r)).
  { intros r. subst s1.
    destruct (connectTo_pin_static s p (PtPin q) r) as (_ & ? & ? & _). done. }
  clearbody s1.
  assert (Hin : p ∈ Pins (channels s1 k)).
  { rewrite HP. apply elem_of_union_l. by apply elem_of_singleton. }
  split.
  - simpl. rewrite Hq1.
    destruct (Hst p) as [Htp Hip], (Hst q) as [Htq Hiq].
    rewrite decide_False by (intros ?; congruence).
    apply ValidatorFacts.checkConnectionToChannel_approves.
    split; [congruence|]. exists q. split.
    + rewrite HP. apply elem_of_union_r. by apply elem_of_singleton.
    + congruence.
  - unfold connectTo. cbn zeta. rewrite Hp1, Hq1.
    rewrite decide_False by (by intros ?). rewrite Hq1.
    destruct (connectToChannel_again s1 p k Hp1 Hin) as (? & ? & ? & _). done.
Qed.

Lemma connectTo_free_pin_again_sample :
  ch (pins Samples.twoFree 1%nat) = None /\
  checkConnectionTo Samples.twoFree 0%nat (PtPin 1%nat) = None /\
  checkConnectionTo (connectTo 0%nat (PtPin 1%nat) Samples.twoFree) 0%nat
    (PtPin 1%nat) = None /\
  goroutines (connectTo 0%nat (PtPin 1%nat)
                (connectTo 0%nat (PtPin 1%nat) Samples.twoFree)) = [].
Proof.
  assert (Hok : checkConnectionTo Samples.twoFree 0%nat (PtPin 1%nat) = None)
    by (by vm_compute).
  split; [reflexivity|]. split; [exact Hok|].
  pose proof (connectTo_free_pin_again Samples.twoFree 0%nat 1%nat eq_refl Hok)
    as H.
  cbv zeta in H. destruct H as (Hagain & _ & Hg & _).
  split; [exact Hagain|]. rewrite Hg. by vm_compute.
Defined.

End ConnectMore.

(** * More on the pin handlers and the goroutines *)

Module HandlerMore.
Import View Wellformed StoreFacts WiringFacts ConnectFacts HandlerFacts.

Lemma setError_frame err x y s :
  wire (setError err x y s) = wire s /\
  goroutines (setError err x y s) = goroutines s /\
  dragItem (setError err x y s) = dragItem s /\
  pins (setError err x y s) = pins s.
Proof. unfold setError. by destruct (decide _). Qed.

Lemma setError_shown err x y s :
  err <> "" ->
  errLabel (setError err x y s)
  = {| text := err; box_x := x + 4; box_y := y - 36; visible := true |}.
Proof. intros H. unfold setError. by rewrite decide_False. Qed.

Lemma disconnect_dragItem s p : dragItem (disconnect p s) = dragItem s.
Proof.
  destruct (ch (pins s p)) as [k|] eqn:Hk.
  - by destruct (disconnect_effect s p k Hk) as (_&_&_&_&_&_&_&_&?&_).
  - by rewrite disconnect_free.
Qed.

Lemma connectTo_dragItem s p q : dragItem (connectTo p q s) = dragItem s.
Proof.
  assert (Hc : forall k s0, dragItem (connectToChannel p k s0) = dragItem s0).
  { intros k s0. unfold connectToChannel. cbn zeta. simpl.
    destruct (ch (pins s0 p)); [|done].
    destruct (decide _); [apply disconnect_dragItem|done]. }
  destruct q as [q|k]; [|apply Hc].
  unfold connectTo. cbn zeta.
  set (s1 := match ch (pins s p) with
             | Some k => if decide (Some k <> ch (pins s q))
                         then disconnect p s else s
             | None => s
             end).
  assert (H1 : dragItem s1 = dragItem s).
  { subst s1. destruct (ch (pins s p)); [|done].
    destruct (decide _); [apply disconnect_dragItem|done]. }
  clearbody s1. destruct (ch (pins s1 q)) as [k|]; [by rewrite Hc|].
  by rewrite <- H1.
Qed.

Section WithNearestPoint.

Variable nearestPoint : State -> Z -> Z -> Z * Point.

(** X11. [drag] always comes back: no way through it reads the channel
    of an unattached pin. It sends nothing, keeps the dragged item, and
    spawns at most one goroutine, a disconnect notification for the pin. *)
Theorem drag_returns_and_only_notifies s p e :
  exists s',
    drag nearestPoint p e s = Some s' /\
    wire s' = wire s /\
    dragItem s' = dragItem s /\
    (goroutines s' = goroutines s \/
     (is_Some (ch (pins s p)) /\
      goroutines s' = goroutines s ++ [go_reallyDisconnect p])).
Proof.
  assert (Hno : forall x y s0,
             wire s0 = wire s -> dragItem s0 = dragItem s ->
             goroutines s0 = goroutines s -> pins s0 = pins s ->
             let s' := dragDeferred p x y (noSnap p s0) in
             wire s' = wire s /\ dragItem s' = dragItem s /\
             (goroutines s' = goroutines s \/
              (is_Some (ch (pins s p)) /\
               goroutines s' = goroutines s ++ [go_reallyDisconnect p]))).
  { intros x y s0 Hw Hd Hg Hp s'. subst s'.
    destruct (noSnap_traffic p s0) as (Hw' & _ & Hd' & Hg').
    change (wire (dragDeferred p x y (noSnap p s0))) with (wire (noSnap p s0)).
    change (dragItem (dragDeferred p x y (noSnap p s0))) with (dragItem (noSnap p s0)).
    change (goroutines (dragDeferred p x y (noSnap p s0)))
      with (goroutines (noSnap p s0)).
    rewrite Hw', Hd', Hg', Hw, Hd, Hg, Hp.
    split; [done|]. split; [done|].
    destruct (ch (pins s p)); [right; by eauto|left; apply app_nil_r]. }
  pose proof (drag_cases nearestPoint s p e) as H. cbv zeta in H.
  destruct H as [[_ ->]|[(_ & _ & err & _ & ->)|(_ & _ & _ & k & x' & y' & _ & _ & ->)]].
  - eexists. split; [done|]. by apply Hno.
  - eexists. split; [done|].
    destruct (setError_frame ("Can't connect: " +:+ err)
                (cursorPos e s).1 (cursorPos e s).2 s) as (? & ? & ? & ?).
    by apply Hno.
  - eexists. split; [done|].
    destruct (connectTo_traffic s p (nearestPoint s (cursorPos e s).1
                                       (cursorPos e s).2).2) as (Hw & _ & Hg).
    split; [exact Hw|]. split; [apply connectTo_dragItem|exact Hg].
Qed.

(** X12. [drag] keeps a sound diagram sound, provided the nearest point,
    if a channel, was made. *)
Theorem drag_keeps_consistent s p e s' :
  consistent s ->
  made s (nearestPoint s (cursorPos e s).1 (cursorPos e s).2).2 ->
  drag nearestPoint p e s = Some s' ->
  consistent s'.
Proof.
  intros Hs Hmade.
  pose proof (drag_cases nearestPoint s p e) as H. cbv zeta in H.
  destruct H as [[_ ->]|[(_ & _ & err & _ & ->)|(_ & _ & Hok & k & x' & y' & _ & _ & ->)]];
    intros [= <-].
  - eapply consistent_same_wiring; [apply same_wiring_dragDeferred|].
    apply noSnap_keeps_consistent.
    eapply consistent_same_wiring; [|exact Hs].
    split; [intros r; apply same_pin_refl|done].
  - eapply consistent_same_wiring; [apply same_wiring_dragDeferred|].
    apply noSnap_keeps_consistent.
    eapply consistent_same_wiring; [apply same_wiring_setError|exact Hs].
  - eapply consistent_same_wiring; [apply same_wiring_dragDeferred|].
    eapply consistent_same_wiring;
      [apply same_wiring_look; intros P; apply same_pin_on_c|].
    eapply consistent_same_wiring;
      [|by apply (connectTo_keeps_consistent s p _ Hs Hmade Hok)].
    split; [intros r; apply same_pin_refl|done].
Qed.

(** X13. When the nearest point is within reach, is not the pin itself
    and is refused by the validator, [drag] shows "Can't connect: " and the
    reason, with the label at the cursor moved by (4,-36); the pin ends
    unattached, no pin gets attached, and nothing is sent. *)
Theorem drag_refused_shows_reason s p e d q err :
  nearestPoint s (cursorPos e s).1 (cursorPos e s).2 = (d, q) ->
  q <> PtPin p ->
  d < snapQuad ->
  checkConnectionTo s p q = Some err ->
  exists s',
    drag nearestPoint p e s = Some s' /\
    errLabel s' = {| text := "Can't connect: " +:+ err;
                     box_x := (cursorPos e s).1 + 4;
                     box_y := (cursorPos e s).2 - 36;
                     visible := true |} /\
    ch (pins s' p) = None /\
    (forall r k, ch (pins s' r) = Some k -> ch (pins s r) = Some k) /\
    wire s' = wire s.
Proof.
  intros Hnear Hq Hd Herr.
  pose proof (drag_cases nearestPoint s p e) as H. cbv zeta in H.
  rewrite Hnear in H. simpl in H.
  destruct H as [[[?|?] _]|[(_ & _ & err' & He & ->)|(_ & _ & ? & _)]];
    [done|lia| |congruence].
  assert (err' = err) as -> by congruence.
  set (x := (cursorPos e s).1). set (y := (cursorPos e s).2).
  set (s0 := setError ("Can't connect: " +:+ err) x y s).
  exists (dragDeferred p x y (noSnap p s0)). split; [done|].
  destruct (noSnap_traffic p s0) as (Hw & He0 & _).
  destruct (setError_frame ("Can't connect: " +:+ err) x y s) as (Hw0 & _ & _ & Hp0).
  destruct (same_wiring_dragDeferred p x y (noSnap p s0)) as (Hsame & _).
  split.
  { change (errLabel (dragDeferred p x y (noSnap p s0)))
      with (errLabel (noSnap p s0)).
    rewrite He0. subst s0. by apply setError_shown. }
  split.
  { destruct (Hsame p) as (_&_&_&_&->&_). apply noSnap_detached. }
  split.
  { intros r k. destruct (Hsame r) as (_&_&_&_&->&_).
    intros H. apply noSnap_no_new in H. subst s0. by rewrite Hp0 in H. }
  change (wire (dragDeferred p x y (noSnap p s0))) with (wire (noSnap p s0)).
  by rewrite Hw.
Qed.

(** X14. When the nearest point is within reach, is not the pin itself
    and is approved by the validator, [drag] connects: the pin ends
    attached to and listed on the target channel, or the channel the target
    pin ends on; the error label and the drag circle are hidden, the
    channel is coloured active, and nothing is sent. *)
Theorem drag_snaps s p e d q :
  nearestPoint s (cursorPos e s).1 (cursorPos e s).2 = (d, q) ->
  q <> PtPin p ->
  d < snapQuad ->
  checkConnectionTo s p q = None ->
  exists s' k,
    drag nearestPoint p e s = Some s' /\
    ch (pins s' p) = Some k /\
    p ∈ Pins (channels s' k) /\
    match q with
    | PtPin q0 => ch (pins s' q0) = Some k
    | PtChannel k0 => k = k0
    end /\
    visible (errLabel s') = false /\
    shown (Pin_c (pins s' p)) = false /\
    calls s' = calls (connectTo p q s) ++ [setColour k activeColour] /\
    wire s' = wire s.
Proof.
  intros Hnear Hq Hd Hok.
  pose proof (drag_cases nearestPoint s p e) as H. cbv zeta in H.
  rewrite Hnear in H. simpl in H.
  destruct H as [[[?|?] _]|[(_ & _ & err' & He & _)|(_ & _ & _ & k & x' & y' & Hp & Hq' & ->)]];
    [done|lia|congruence|].
  destruct (connectTo_attaches s p q) as (k1 & Hp1 & Hin & _).
  assert (k1 = k) as -> by congruence.
  destruct (connectTo_traffic s p q) as (Hw & _).
  set (s2 := connectTo p q s) in *.
  set (s' := dragDeferred p x' y' _).
  assert (Hsame : same_wiring s2 s').
  { subst s'.
    eapply same_wiring_trans; [|apply same_wiring_dragDeferred].
    eapply same_wiring_trans; [|apply same_wiring_look; intros P; apply same_pin_on_c].
    split; [intros r; apply same_pin_refl|done]. }
  destruct Hsame as (Hpins & Hchan & _).
  exists s', k. split; [done|].
  split. { destruct (Hpins p) as (_&_&_&_&->&_). done. }
  split. { by rewrite Hchan. }
  split.
  { destruct q as [q0|k0]; [|done].
    destruct (Hpins q0) as (_&_&_&_&->&_). done. }
  split; [done|].
  split.
  { subst s'. unfold dragDeferred, on_pin. simpl.
    by rewrite !fn_lookup_insert. }
  split; [done|]. exact Hw.
Qed.

End WithNearestPoint.

(** X15. [drop] never edits the wiring: it hides the error label and the
    drag circle, sends nothing, and spawns exactly one goroutine for a free
    pin (a disconnect notification) or for a pin whose channel has its
    [created] flag set (a connect request), and none otherwise. *)
Theorem drop_keeps_wiring_and_notifies s p e :
  same_wiring s (drop p e s) /\
  visible (errLabel (drop p e s)) = false /\
  shown (Pin_c (pins (drop p e s) p)) = false /\
  wire (drop p e s) = wire s /\
  dragItem (drop p e s) = dragItem s /\
  goroutines (drop p e s)
  = goroutines s ++ match ch (pins s p) with
                    | None => [go_reallyDisconnect p]
                    | Some k => if created (channels s k)
                                then [go_reallyConnect p] else []
                    end.
Proof.
  split; [apply same_wiring_drop|].
  unfold drop. cbn zeta.
  set (s0 := on_pin p (on_c Hide) _).
  assert (H0 : ch (pins s0 p) = ch (pins s p)).
  { subst s0. unfold on_pin. simpl. by rewrite !fn_lookup_insert. }
  assert (Hc0 : shown (Pin_c (pins s0 p)) = false).
  { subst s0. unfold on_pin. simpl. by rewrite !fn_lookup_insert. }
  assert (Hr : channels s0 = channels s /\ wire s0 = wire s /\
               dragItem s0 = dragItem s /\ goroutines s0 = goroutines s /\
               visible (errLabel s0) = false) by done.
  destruct Hr as (Hch & Hw & Hd & Hg & Hv). clearbody s0.
  rewrite H0. destruct (ch (pins s p)) as [k|].
  - rewrite Hch. destruct (created (channels s k)); simpl;
      rewrite ?Hg, ?app_nil_r; by repeat split.
  - simpl. unfold insert, fn_insert. rewrite decide_True by done. simpl.
    rewrite Hg. by repeat split.
Qed.

(** X16. [reallyDisconnect] sends one request, naming the graph's file,
    the pin's node and the pin, and never edits the wiring, whatever the
    answer: a refusal only shows "Couldn't disconnect: " and the failure
    text, with the label at (4,-36). *)
Theorem reallyDisconnect_only_reports client s p :
  let req := DisconnectPinRequest (graph_FilePath s)
               (node_Name (nodes s (node (pins s p)))) (Pin_Name (pins s p)) in
  let s' := reallyDisconnect client p s in
  same_wiring s s' /\
  wire s' = wire s ++ [req] /\
  goroutines s' = goroutines s /\
  errLabel s' = match client (wire s) req with
                | Some err => {| text := "Couldn't disconnect: " +:+ err;
                                 box_x := 4; box_y := -36; visible := true |}
                | None => errLabel s
                end.
Proof.
  intros req s'. subst s'. split; [apply same_wiring_reallyDisconnect|].
  unfold reallyDisconnect. cbn zeta. fold req.
  destruct (client (wire s) req) as [err|]; [|done].
  destruct (setError_frame ("Couldn't disconnect: " +:+ err) 0 0
              (set_wire (wire s ++ [req]) s)) as (-> & -> & _).
  by rewrite setError_shown.
Qed.

(** X17. [reallyConnect] panics exactly when the pin is unattached by the
    time it runs. Otherwise it sends one request and never edits the
    wiring: on success nothing but the wire changes, the channel's
    [created] flag and the error label included. *)
Theorem reallyConnect_outcomes client s p :
  (reallyConnect client p s = None <-> ch (pins s p) = None) /\
  forall s', reallyConnect client p s = Some s' ->
    same_wiring s s' /\
    goroutines s' = goroutines s /\
    exists req,
      wire s' = wire s ++ [req] /\
      (client (wire s) req = None -> errLabel s' = errLabel s).
Proof.
  split.
  - unfold reallyConnect. destruct (ch (pins s p)); [|done]. cbn zeta.
    destruct (client _ _); done.
  - intros s' Hs'. split; [by eapply same_wiring_reallyConnect|].
    revert Hs'. unfold reallyConnect.
    destruct (ch (pins s p)) as [k|]; [|done]. cbn zeta.
    set (req := ConnectPinRequest _ _ _ _).
    destruct (client (wire s) req) as [err|] eqn:Hans; intros [= <-].
    + destruct (setError_frame ("Couldn't connect: " +:+ err) 0 0
                  (set_wire (wire s ++ [req]) s)) as (-> & -> & _).
      split; [done|]. exists req. split; [done|]. congruence.
    + split; [done|]. by exists req.
Qed.

End HandlerMore.

Module GestureFacts.
Import View Wellformed StoreFacts WiringFacts ConnectFacts HandlerFacts.

Lemma drag_keeps_consistent_sample :
  consistent Samples.twoFree /\
  made Samples.twoFree
    (Samples.nearestOfTwo Samples.twoFree
       (cursorPos (Samples.at_ 301 199) Samples.twoFree).1
       (cursorPos (Samples.at_ 301 199) Samples.twoFree).2).2 /\
  exists s',
    drag Samples.nearestOfTwo 0%nat (Samples.at_ 301 199) Samples.twoFree = Some s' /\
    consistent s'.
Proof.
  assert (Hmade : made Samples.twoFree
    (Samples.nearestOfTwo Samples.twoFree
       (cursorPos (Samples.at_ 301 199) Samples.twoFree).1
       (cursorPos (Samples.at_ 301 199) Samples.twoFree).2).2)
    by (by vm_compute).
  split; [exact SampleFacts.twoFree_consistent|]. split; [exact Hmade|].
  destruct (drag Samples.nearestOfTwo 0%nat (Samples.at_ 301 199) Samples.twoFree)
    as [s'|] eqn:Hrun; [|by vm_compute in Hrun].
  exists s'. split; [done|].
  exact (HandlerMore.drag_keeps_consistent Samples.nearestOfTwo Samples.twoFree
           0%nat (Samples.at_ 301 199) s' SampleFacts.twoFree_consistent
           Hmade Hrun).
Defined.

Lemma drag_refused_shows_reason_sample :
  MoreSamples.nearestOfThree Samples.twoFree
    (cursorPos (Samples.at_ 501 299) Samples.twoFree).1
    (cursorPos (Samples.at_ 501 299) Samples.twoFree).2 = (2, PtPin 2%nat) /\
  PtPin 2%nat <> PtPin 0%nat /\
  2 < snapQuad /\
  checkConnectionTo Samples.twoFree 0%nat (PtPin 2%nat)
  = Some "mismatching types [int != string]" /\
  exists s',
    drag MoreSamples.nearestOfThree 0%nat (Samples.at_ 501 299) Samples.twoFree
    = Some s' /\
    errLabel s' = {| text := "Can't connect: mismatching types [int != string]";
                     box_x := 505; box_y := 263; visible := true |}.
Proof.
  split; [by vm_compute|]. split; [discriminate|]. split; [by vm_compute|].
  split; [by vm_compute|].
  destruct (HandlerMore.drag_refused_shows_reason MoreSamples.nearestOfThree
              Samples.twoFree 0%nat (Samples.at_ 501 299) 2 (PtPin 2%nat)
              "mismatching types [int != string]")
    as (s' & Hrun & Hlabel & _).
  - by vm_compute.
  - discriminate.
  - by vm_compute.
  - by vm_compute.
  - exists s'. split; [exact Hrun|]. rewrite Hlabel. by vm_compute.
Defined.

Lemma drag_snaps_sample :
  Samples.nearestOfTwo Samples.twoFree
    (cursorPos (Samples.at_ 301 199) Samples.twoFree).1
    (cursorPos (Samples.at_ 301 199) Samples.twoFree).2 = (2, PtPin 1%nat) /\
  PtPin 1%nat <> PtPin 0%nat /\
  2 < snapQuad /\
  checkConnectionTo Samples.twoFree 0%nat (PtPin 1%nat) = None /\
  exists s' k,
    drag Samples.nearestOfTwo 0%nat (Samples.at_ 301 199) Samples.twoFree = Some s' /\
    ch (pins s' 0%nat) = Some k /\
    ch (pins s' 1%nat) = Some k.
Proof.
  split; [by vm_compute|]. split; [discriminate|]. split; [by vm_compute|].
  split; [by vm_compute|].
  destruct (HandlerMore.drag_snaps Samples.nearestOfTwo Samples.twoFree 0%nat
              (Samples.at_ 301 199) 2 (PtPin 1%nat))
    as (s' & k & Hrun & Hp & _ & Hq & _).
  - by vm_compute.
  - discriminate.
  - by vm_compute.
  - by vm_compute.
  - by exists s', k.
Defined.

Section WithChannelMethods.

Variable Channel_dragStart : ChanId -> Event -> State -> State.
Variable Channel_drag : ChanId -> Event -> State -> State.
Variable Channel_drop : ChanId -> Event -> State -> State.
Variable nearestPoint : State -> Z -> Z -> Z * Point.

(** X18. Pressing a free pin and releasing it with nothing to snap to
    (the nearest point is the pin itself or out of reach) edits no wiring
    and ends the drag, yet spawns one disconnect notification for the pin,
    which was never connected. *)
Theorem press_release_free_pin s p e e' d q :
  ch (pins s p) = None ->
  nearestPoint (dragStartFree p e s)
    (cursorPos e' (dragStartFree p e s)).1
    (cursorPos e' (dragStartFree p e s)).2 = (d, q) ->
  q = PtPin p \/ snapQuad <= d ->
  dragStart Channel_dragStart p e s = Some (dragStartFree p e s) /\
  exists s2,
    mouseUp Channel_drag Channel_drop nearestPoint e' (dragStartFree p e s)
    = Some s2 /\
    same_wiring s s2 /\
    dragItem s2 = None /\
    wire s2 = wire s /\
    goroutines s2 = goroutines s ++ [go_reallyDisconnect p].
Proof.
  intros Hfree Hnear Hfar.
  split. { unfold dragStart. simpl. by rewrite Hfree. }
  set (s1 := dragStartFree p e s) in *.
  assert (W1 : same_wiring s s1) by apply same_wiring_dragStartFree.
  assert (Hfree1 : ch (pins s1 p) = None).
  { destruct W1 as (Hp & _). destruct (Hp p) as (_&_&_&_&->&_). done. }
  assert (Hg1 : goroutines s1 = goroutines s /\ wire s1 = wire s) by done.
  destruct Hg1 as [Hg1 Hw1].
  unfold mouseUp. change (dragItem s1) with (Some (DragPin p)).
  pose proof (drag_cases nearestPoint s1 p e') as H. cbv zeta in H.
  rewrite Hnear in H. simpl in H.
  destruct H as [[_ ->]|[(Hq & Hd & _)|(Hq & Hd & _)]];
    [|destruct Hfar; [done|lia]..].
  set (x := (cursorPos e' s1).1). set (y := (cursorPos e' s1).2).
  set (s2 := dragDeferred p x y (noSnap p (clearError s1))).
  assert (W2 : same_wiring s1 s2).
  { subst s2.
    eapply same_wiring_trans; [|apply same_wiring_dragDeferred].
    eapply same_wiring_trans; [|apply noSnap_wiring].
    change (pins (clearError s1)) with (pins s1). rewrite Hfree1.
    split; [intros r; apply same_pin_refl|done]. }
  assert (Hfree2 : ch (pins s2 p) = None).
  { destruct W2 as (Hp & _). destruct (Hp p) as (_&_&_&_&->&_). done. }
  assert (Ht2 : wire s2 = wire s1 /\ goroutines s2 = goroutines s1).
  { subst s2. destruct (noSnap_traffic p (clearError s1)) as (Hw & _ & _ & Hg).
    change (pins (clearError s1)) with (pins s1) in Hg. rewrite Hfree1 in Hg.
    rewrite app_nil_r in Hg. split; [exact Hw|exact Hg]. }
  destruct Ht2 as [Hw2 Hg2].
  exists (set_dragItem None (drop p e' s2)).
  split; [done|]. clearbody s2.
  pose proof (same_wiring_drop p e' s2) as W3.
  split.
  { eapply same_wiring_trans; [exact W1|].
    eapply same_wiring_trans; [exact W2|].
    eapply same_wiring_trans; [exact W3|].
    split; [intros r; apply same_pin_refl|done]. }
  split; [done|].
  unfold drop. cbn zeta.
  set (s3 := on_pin p (on_c Hide) _).
  assert (H3 : ch (pins s3 p) = None).
  { subst s3. unfold on_pin. simpl. by rewrite !fn_lookup_insert. }
  assert (Hr3 : wire s3 = wire s2 /\ goroutines s3 = goroutines s2) by done.
  destruct Hr3 as [Hw3 Hg3]. clearbody s3. rewrite H3. simpl.
  rewrite Hw3, Hg3, Hw2, Hg2, Hw1, Hg1. done.
Qed.

(** X19. [dragStart] keeps a sound diagram sound, if the channel's own
    [dragStart] does. *)
Theorem dragStart_keeps_consistent s p e s' :
  (forall k e0 s0, consistent s0 -> consistent (Channel_dragStart k e0 s0)) ->
  consistent s ->
  dragStart Channel_dragStart p e s = Some s' ->
  consistent s'.
Proof.
  intros Hcds Hs.
  destruct (ch (pins s p)) as [k|] eqn:Hk.
  - destruct (ProtocolFacts.dragStart_attached_unfold Channel_dragStart s p e k Hk)
      as [_ ->].
    set (rest := Pins (channels s k) ∖ {[p]}).
    set (s1 := on_pin p (on_l Hide) (disconnect p s)).
    assert (H1 : consistent s1).
    { eapply consistent_same_wiring;
        [apply same_wiring_look; intros P; apply same_pin_on_l|].
      by apply disconnect_keeps_consistent. }
    destruct (decide (1 < size rest)%nat) as [Hge|Hlt].
    { intros [= <-]. by apply Hcds. }
    destruct (elements rest) as [|q qs] eqn:Hel.
    { intros [= <-].
      eapply consistent_same_wiring; [apply same_wiring_dragStartFree|done]. }
    assert (Hq : q ∈ rest).
    { apply elem_of_elements. rewrite Hel. left. }
    assert (Hf : ch (pins s1 q) = None)
      by (apply (ProtocolFacts.dragStart_frees_last s p k q Hk);
          [fold rest; lia|done]).
    unfold dragStartFuel. rewrite Hf. intros [= <-].
    eapply consistent_same_wiring; [apply same_wiring_dragStartFree|done].
  - unfold dragStart. simpl. rewrite Hk. intros [= <-].
    eapply consistent_same_wiring; [apply same_wiring_dragStartFree|done].
Qed.

End WithChannelMethods.

Lemma press_release_free_pin_sample :
  ch (pins Samples.twoFree 0%nat) = None /\
  Samples.nearestOfTwo (dragStartFree 0%nat (Samples.at_ 100 100) Samples.twoFree)
    (cursorPos (Samples.at_ 200 150)
       (dragStartFree 0%nat (Samples.at_ 100 100) Samples.twoFree)).1
    (cursorPos (Samples.at_ 200 150)
       (dragStartFree 0%nat (Samples.at_ 100 100) Samples.twoFree)).2
  = (12500, PtPin 0%nat) /\
  (PtPin 0%nat = PtPin 0%nat \/ snapQuad <= 12500) /\
  exists s2,
    mouseUp Samples.idle Samples.idle Samples.nearestOfTwo (Samples.at_ 200 150)
      (dragStartFree 0%nat (Samples.at_ 100 100) Samples.twoFree) = Some s2 /\
    goroutines s2 = [go_reallyDisconnect 0%nat].
Proof.
  split; [reflexivity|]. split; [by vm_compute|]. split; [by left|].
  destruct (press_release_free_pin Channel_dragStart_model Samples.idle
              Samples.idle Samples.nearestOfTwo Samples.twoFree 0%nat
              (Samples.at_ 100 100) (Samples.at_ 200 150) 12500 (PtPin 0%nat))
    as (_ & s2 & Hrun & _ & _ & _ & Hg).
  - reflexivity.
  - by vm_compute.
  - by left.
  - exists s2. split; [exact Hrun|]. rewrite Hg. reflexivity.
Defined.

Lemma dragStart_keeps_consistent_sample :
  (forall k e0 s0, consistent s0 -> consistent (Channel_dragStart_model k e0 s0)) /\
  consistent Samples.threeAttached /\
  exists s',
    dragStart Channel_dragStart_model 0%nat (Samples.at_ 100 100)
      Samples.threeAttached = Some s' /\
    consistent s'.
Proof.
  assert (Hm : forall k e0 s0,
             consistent s0 -> consistent (Channel_dragStart_model k e0 s0)).
  { intros k e0 s0. apply consistent_same_wiring.
    unfold Channel_dragStart_model.
    destruct (elements (Pins (channels s0 k)));
      (split; [intros r; apply same_pin_refl|by repeat split]). }
  split; [exact Hm|]. split; [exact SampleFacts.threeAttached_consistent|].
  destruct (dragStart Channel_dragStart_model 0%nat (Samples.at_ 100 100)
              Samples.threeAttached) as [s'|] eqn:Hrun;
    [|by vm_compute in Hrun].
  exists s'. split; [done|].
  exact (dragStart_keeps_consistent Channel_dragStart_model Samples.threeAttached
           0%nat (Samples.at_ 100 100) s' Hm
           SampleFacts.threeAttached_consistent Hrun).
Defined.

End GestureFacts.

(** * More on the controller *)

Module ControllerMore.
Import Controller ControllerFacts.

Section WithParts.

Variable Part : Type.
Variable PartTypes : gmap string (PartType Part).
Variable MarshalPart : Part -> string + string.

Local Abbreviation CreateNode := (Controller.CreateNode Part PartTypes MarshalPart).
Local Abbreviation SaveProperties := (Controller.SaveProperties Part).

(** The loop stops at the first name that is free: every name it tried
    before is a key. *)
Lemma inventName_first fuel (nodes : gmap string (Node Part)) partType i name r :
  2 <= i -> i + Z.of_nat fuel < 2 ^ 63 ->
  inventName Part fuel nodes partType i name = Some r ->
  (r = name /\ nodes !! name = None) \/
  (is_Some (nodes !! name) /\
   exists j, i <= j /\ r = candidate partType j /\ nodes !! r = None /\
             forall j', i <= j' < j -> is_Some (nodes !! candidate partType j')).
Proof.
  revert i name. induction fuel as [|fuel IH]; intros i name Hi Hb; simpl; [done|].
  destruct (nodes !! name) as [n|] eqn:Hn.
  - rewrite wrap_int_small by lia. intros Hr. right. split; [by eexists|].
    apply IH in Hr; [|lia..].
    destruct Hr as [[-> Hfree]|(Htaken & j & Hj & -> & Hfree & Hall)].
    + exists i. split; [lia|]. split; [done|]. split; [done|]. intros j' Hj'. lia.
    + exists j. split; [lia|]. split; [done|]. split; [done|].
      intros j' Hj'. destruct (decide (j' = i)) as [->|]; [done|].
      apply Hall. lia.
  - intros [= <-]. by left.
Qed.

(** What a node returned by [CreateNode] is made of. *)
Lemma CreateNode_Ok partType c n :
  (CreateNode partType c).1 = Ok n ->
  exists name ptype,
    inventName Part (S (size (Nodes Part (graph Part c))))
      (Nodes Part (graph Part c)) partType 2 partType = Some name /\
    PartTypes !! partType = Some ptype /\
    n = newNode Part name (New Part ptype).
Proof.
  unfold Controller.CreateNode.
  destruct (inventName _ _ _ _ _ _) as [name|]; [|done].
  destruct (PartTypes !! partType) as [ptype|]; [|done].
  destruct (MarshalPart _) as [pm|]; [|done].
  unfold call. simpl. destruct (client Part c _ _); [done|].
  intros [= <-]. by exists name, ptype.
Qed.

(** [CreateNode] never writes the graph. *)
Lemma CreateNode_graph partType c :
  graph Part (CreateNode partType c).2 = graph Part c.
Proof.
  unfold Controller.CreateNode.
  destruct (inventName _ _ _ _ _ _) as [name|]; [|done].
  destruct (PartTypes !! partType) as [ptype|]; [|done].
  destruct (MarshalPart _) as [pm|]; [|done].
  unfold call. simpl. by destruct (client Part c _ _).
Qed.

(** X20. The name of a node returned by [CreateNode] is the first free
    one: the part type if that is not a key, else the part type with the
    least numeral from 2 on that gives a name which is not a key. *)
Theorem CreateNode_first_free_name partType c n :
  Z.of_nat (size (Nodes Part (graph Part c))) < 2 ^ 62 ->
  (CreateNode partType c).1 = Ok n ->
  (Nodes Part (graph Part c) !! partType = None /\ Node_Name Part n = partType) \/
  (is_Some (Nodes Part (graph Part c) !! partType) /\
   exists j, 2 <= j /\
     Node_Name Part n = partType +:+ " " +:+ Itoa j /\
     Nodes Part (graph Part c) !! Node_Name Part n = None /\
     forall j', 2 <= j' < j ->
       is_Some (Nodes Part (graph Part c) !! (partType +:+ " " +:+ Itoa j'))).
Proof.
  intros Hsize Hok.
  destruct (CreateNode_Ok partType c n Hok) as (name & ptype & Hname & _ & ->).
  apply inventName_first in Hname; [|lia..]. simpl.
  destruct Hname as [[-> Hfree]|(Htaken & j & Hj & -> & Hfree & Hall)].
  - by left.
  - right. split; [done|]. by exists j.
Qed.

(** X21. Since [CreateNode] does not put the node into the graph, asking
    again on the controller it leaves gives the very same node, name
    included. *)
Theorem CreateNode_again_same_node partType c n n' :
  (CreateNode partType c).1 = Ok n ->
  (CreateNode partType (CreateNode partType c).2).1 = Ok n' ->
  n' = n.
Proof.
  intros H1 H2.
  destruct (CreateNode_Ok partType c n H1) as (name & ptype & Hname & Hpt & ->).
  destruct (CreateNode_Ok partType _ n' H2) as (name' & ptype' & Hname' & Hpt' & ->).
  rewrite CreateNode_graph in Hname'. congruence.
Qed.

(** X22. Once [SaveProperties] has succeeded, saving again changes
    nothing of the graph, whatever the remote authority answers. *)
Theorem SaveProperties_again c :
  (SaveProperties c).1 = None ->
  graph Part (SaveProperties (SaveProperties c).2).2
  = graph Part (SaveProperties c).2.
Proof.
  unfold Controller.SaveProperties at 1 3 4, call. simpl.
  destruct (client Part c _ _) as [e|]; [done|]. intros _.
  unfold Controller.SaveProperties, call. simpl.
  by destruct (client Part c _ _).
Qed.

End WithParts.

Lemma CreateNode_first_free_name_sample :
  Z.of_nat (size (Nodes unit (graph unit MoreSamples.crowdedController))) < 2 ^ 62 /\
  (Controller.CreateNode unit Samples.partTypes Samples.marshal "Sum"
     MoreSamples.crowdedController).1 = Ok (newNode unit "Sum 4" tt) /\
  is_Some (Nodes unit (graph unit MoreSamples.crowdedController) !! "Sum 3").
Proof.
  assert (Hrun : (Controller.CreateNode unit Samples.partTypes Samples.marshal "Sum"
                    MoreSamples.crowdedController).1
                 = Ok (newNode unit "Sum 4" tt)) by (by vm_compute).
  split; [by vm_compute|]. split; [exact Hrun|].
  destruct (CreateNode_first_free_name unit Samples.partTypes Samples.marshal
              "Sum" MoreSamples.crowdedController (newNode unit "Sum 4" tt))
    as [[Hfree _]|(_ & j & Hj & Hname & _ & Hall)];
    [by vm_compute|exact Hrun|by vm_compute in Hfree|].
  simpl in Hname. apply (candidate_inj "Sum" 4 j) in Hname. subst j.
  apply (Hall 3). lia.
Defined.

Lemma CreateNode_again_same_node_sample :
  (Controller.CreateNode unit Samples.partTypes Samples.marshal "Sum"
     (Samples.controllerWith Samples.accepting)).1 = Ok (newNode unit "Sum 2" tt) /\
  (Controller.CreateNode unit Samples.partTypes Samples.marshal "Sum"
     (Controller.CreateNode unit Samples.partTypes Samples.marshal "Sum"
        (Samples.controllerWith Samples.accepting)).2).1
  = Ok (newNode unit "Sum 2" tt).
Proof.
  assert (H1 : (Controller.CreateNode unit Samples.partTypes Samples.marshal "Sum"
                  (Samples.controllerWith Samples.accepting)).1
               = Ok (newNode unit "Sum 2" tt)) by (by vm_compute).
  split; [exact H1|].
  destruct (Controller.CreateNode unit Samples.partTypes Samples.marshal "Sum"
     (Controller.CreateNode unit Samples.partTypes Samples.marshal "Sum"
        (Samples.controllerWith Samples.accepting)).2).1 as [n'|e| |] eqn:H2;
    [|by vm_compute in H2..].
  f_equal.
  exact (CreateNode_again_same_node unit Samples.partTypes Samples.marshal "Sum"
           (Samples.controllerWith Samples.accepting) _ n' H1 H2).
Defined.

Lemma SaveProperties_again_sample :
  (Controller.SaveProperties unit (Samples.controllerWith Samples.accepting)).1
  = None /\
  Graph_Name unit
    (graph unit
       (Controller.SaveProperties unit
          (Controller.SaveProperties unit
             (Samples.controllerWith Samples.accepting)).2).2)
  = "adder2".
Proof.
  split; [reflexivity|].
  rewrite (SaveProperties_again unit (Samples.controllerWith Samples.accepting)
             eq_refl).
  reflexivity.
Defined.

End ControllerMore.
